(** * The Mirsky-ratio analysis script (analysis.py), embedded in Rocq

    The script fetches, for each ticker of a fixed list, one year of closing
    prices and the latest annual financial statement, derives the ratio
    R&D / SG&A and the one-year price growth, keeps the tickers whose data
    is complete, writes the sorted rows to a CSV file and correlates the two
    columns.

    Python floats are IEEE 754 binary64 numbers: they are modelled by Rocq's
    primitive floats, whose operations are the same.  Exceptions are values
    of an error monad; the two [try] blocks of the script are handlers in
    that monad.  What the script takes from outside (the data provider, the
    string parser behind [float], the sort of pandas and [pearsonr] of
    scipy) is abstracted in a section. *)

From Stdlib Require Import Floats ZArith List String Bool Lia PeanoNat.
From Stdlib Require Import Permutation Sorted.
Import ListNotations.

Set Implicit Arguments.

Local Open Scope string_scope.
Local Open Scope list_scope.
Local Open Scope float_scope.

(** ** Floats *)

Definition not_nan (x : float) : Prop := is_nan x = false.

(** ** Python values and exceptions *)

(** A cell of a pandas frame or series as the script meets it: a float, a
    Python integer (object columns), a string, or nothing ([None]). *)
Inductive cell : Type :=
| CFloat (x : float)
| CInt (z : Z)
| CStr (s : string)
| CNone.

(** The argument of [extract_scalar]: a bare cell, a [pd.Series] of cells, a
    plain Python sequence (list or tuple) of cells, or a whole
    [pd.DataFrame] (what [.loc] returns for a repeated label). *)
Inductive value : Type :=
| Bare (c : cell)
| Series (cs : list cell)
| Sequence (cs : list cell)
| Frame.

(** Exceptions, all of them subclasses of Python's [Exception], which is
    what the handler of the loop catches.  [ProviderError] stands for
    whatever the data provider raises. *)
Inductive exn : Type :=
| ValueError
| TypeError
| IndexError
| KeyError
| ZeroDivisionError
| OverflowError
| ProviderError (msg : string).

Inductive result (A : Type) : Type :=
| Ok (a : A)
| Raise (e : exn).

Arguments Ok {A} a.
Arguments Raise {A} e.

Definition bind {A B : Type} (r : result A) (k : A -> result B) : result B :=
  match r with
  | Ok a => k a
  | Raise e => Raise e
  end.

Notation "x <- r ;; k" := (bind r (fun x => k))
  (at level 61, r at next level, right associativity).

(** [try: r except (classes): h]. *)
Definition try_except {A : Type} (r : result A) (handles : exn -> bool)
    (h : exn -> result A) : result A :=
  match r with
  | Ok a => Ok a
  | Raise e => if handles e then h e else Raise e
  end.

(** [series.iloc[i]]: position [i], counted from the end when negative. *)
Definition iloc (cs : list cell) (i : Z) : result cell :=
  let n := Z.of_nat (List.length cs) in
  let j := if (i <? 0)%Z then (n + i)%Z else i in
  if ((j <? 0) || (n <=? j))%Z then Raise IndexError
  else match nth_error cs (Z.to_nat j) with
       | Some c => Ok c
       | None => Raise IndexError
       end.

(** [float(z)] on a Python integer: the nearest binary64 number, ties to
    even, and [OverflowError] when that is beyond the largest one. *)
Definition float_of_int (z : Z) : result float :=
  match binary_normalize prec emax z 0 false with
  | S754_infinity _ => Raise OverflowError
  | sf => Ok (SF2Prim sf)
  end.

(** Python's true division on floats: it raises on a zero divisor (of either
    sign) and is the IEEE division otherwise. *)
Definition py_div (a b : float) : result float :=
  if b =? 0 then Raise ZeroDivisionError else Ok (a / b).

(** ** The script *)

(** One dictionary appended to [results] (lines 89-95).  The growth is the
    integer 0 when the start price is not positive; in the frame its column
    is float64, so it is the float 0.0 here. *)
Record record : Type := {
  Ticker : string;
  Mirsky_Ratio : float;
  Market_Growth_1Y_Percent : float;
  R_and_D : float;
  SG_and_A : float
}.

(** [stock.history(period="1y")]: a frame with one row per observation.
    The script reads its length and its Close column, so a frame is given by
    that column, or by its number of rows when it has no such column. *)
Inductive PriceHistory : Type :=
| WithClose (closes : list cell)
| WithoutClose (rows : nat).

(** [len(hist)]. *)
Definition hist_len (hist : PriceHistory) : nat :=
  match hist with
  | WithClose closes => List.length closes
  | WithoutClose rows => rows
  end.

(** [hist['Close']]. *)
Definition close_column (hist : PriceHistory) : result (list cell) :=
  match hist with
  | WithClose closes => Ok closes
  | WithoutClose _ => Raise KeyError
  end.

(** [stock.financials]: a frame with one row per line item and one column per
    reported period, the most recent first. *)
Record Financials : Type := {
  fin_index : list string;
  fin_columns : nat;
  fin_at : nat -> nat -> cell
}.

Definition fin_empty (f : Financials) : bool :=
  (List.length (fin_index f) =? 0)%nat || (fin_columns f =? 0)%nat.

Definition in_index (label : string) (f : Financials) : bool :=
  existsb (String.eqb label) (fin_index f).

Fixpoint positions (label : string) (index : list string) (i : nat) : list nat :=
  match index with
  | [] => []
  | l :: rest =>
      if String.eqb label l then i :: positions label rest (S i)
      else positions label rest (S i)
  end.

(** [financials.loc[label]]: the row as a series; a frame when the label is
    repeated; [KeyError] when it is absent. *)
Definition loc (f : Financials) (label : string) : result value :=
  match positions label (fin_index f) 0 with
  | [] => Raise KeyError
  | [i] => Ok (Series (map (fin_at f i) (seq 0 (fin_columns f))))
  | _ :: _ :: _ => Ok Frame
  end.

Inductive skip_reason : Type :=
| InsufficientPriceData
| MissingFinancialData
| SGAIsZero.

Inductive outcome : Type :=
| Skipped (why : skip_reason)
| Accepted (r : record).

(** What the script prints, one item per call of [print].  The progress
    text of line 58 is printed with [end=" "]: it does not end the console
    line, the status printed next does. *)
Inductive print_call : Type :=
| Starting
| Processing (i total : nat) (ticker : string)
| PrintOK
| PrintSkipped (why : skip_reason)
| PrintError (e : exn)
| NoDataCollected
| SavedTo (filename : string)
| StatisticalResults (n : nat) (correlation p_value : float)
| InsufficientData.

Record report : Type := {
  console : list print_call;
  csv : option (list record);
  pearson_input : option (list float * list float)
}.

Definition RND_LABEL : string := "Research And Development".
Definition SGA_LABEL : string := "Selling General And Administration".
Definition output_filename : string := "mirsky_ratio_results.csv".


(** The statement check of line 75. *)
Definition statement_missing (fin : Financials) : bool :=
  fin_empty fin || negb (in_index RND_LABEL fin) || negb (in_index SGA_LABEL fin).

Definition handled_by_extract_scalar (e : exn) : bool :=
  match e with
  | ValueError | TypeError | IndexError => true
  | _ => false
  end.

(** A row of the frame holds a missing value when one of its numbers is NaN
    (the ticker is a string and never is). *)
Definition has_na (r : record) : bool :=
  is_nan (Mirsky_Ratio r) || is_nan (Market_Growth_1Y_Percent r)
  || is_nan (R_and_D r) || is_nan (SG_and_A r).

Definition dropna (rows : list record) : list record :=
  filter (fun r => negb (has_na r)) rows.

Module Script.

Section Analysis.

(** [float(s)] on a string: the parsed number, or nothing where Python
    raises [ValueError]. *)
Variable float_of_str : string -> option float.

(** The provider: [stock.history(period="1y")] and [stock.financials].
    Either call may raise. *)
Variable history : string -> result PriceHistory.
Variable financials : string -> result Financials.

(** [df.sort_values(by='Mirsky_Ratio', ascending=False)] and
    [scipy.stats.pearsonr]. *)
Variable sort_values : list record -> list record.
Variable pearsonr : list float -> list float -> float * float.

(** [float(c)] on a cell: a float converts to itself, an integer to the
    nearest float unless it is too large, a string is parsed, [None] is a
    [TypeError]. *)
Definition py_float (c : cell) : result float :=
  match c with
  | CFloat x => Ok x
  | CInt z => float_of_int z
  | CStr s =>
      match float_of_str s with
      | Some x => Ok x
      | None => Raise ValueError
      end
  | CNone => Raise TypeError
  end.

(** Lines 23-33.  A series is replaced by its first cell before [float] is
    called; [float] of a list, of a tuple or of a whole frame is a
    [TypeError].  The handler does not catch [OverflowError]. *)
Definition extract_scalar (v : value) : result float :=
  try_except
    (match v with
     | Series cs => c <- iloc cs 0 ;; py_float c
     | Bare c => py_float c
     | Sequence _ => Raise TypeError
     | Frame => Raise TypeError
     end)
    handled_by_extract_scalar
    (fun _ => Ok 0).

(** Line 71. *)
Definition market_growth_of (start_price end_price : float) : result float :=
  if 0 <? start_price then
    q <- py_div (end_price - start_price) start_price ;; Ok (q * 100)
  else Ok 0.

(** The body of the [try] block, lines 61-96, for one ticker. *)
Definition process_ticker (ticker : string) : result outcome :=
  hist <- history ticker ;;
  if (hist_len hist <? 2)%nat then Ok (Skipped InsufficientPriceData) else
  closes <- close_column hist ;;
  c_first <- iloc closes 0 ;;
  start_price <- extract_scalar (Bare c_first) ;;
  c_last <- iloc closes (-1) ;;
  end_price <- extract_scalar (Bare c_last) ;;
  market_growth <- market_growth_of start_price end_price ;;
  fin <- financials ticker ;;
  if fin_empty fin || negb (in_index RND_LABEL fin) || negb (in_index SGA_LABEL fin)
  then Ok (Skipped MissingFinancialData) else
  rnd_row <- loc fin RND_LABEL ;;
  rnd <- extract_scalar rnd_row ;;
  sga_row <- loc fin SGA_LABEL ;;
  sga <- extract_scalar sga_row ;;
  if sga =? 0 then Ok (Skipped SGAIsZero) else
  mirsky_ratio <- py_div rnd sga ;;
  Ok (Accepted {| Ticker := ticker;
                  Mirsky_Ratio := mirsky_ratio;
                  Market_Growth_1Y_Percent := market_growth;
                  R_and_D := rnd;
                  SG_and_A := sga |}).

(** The loop, lines 57-100: the state is the list [results] and the
    console. *)
Record loop_state : Type := {
  results : list record;
  printed : list print_call
}.

Definition loop_body (total : nat) (st : loop_state) (it : nat * string)
    : loop_state :=
  let (i, ticker) := it in
  let out := printed st ++ [Processing (i + 1) total ticker] in
  match process_ticker ticker with
  | Ok (Accepted r) =>
      {| results := results st ++ [r]; printed := out ++ [PrintOK] |}
  | Ok (Skipped why) =>
      {| results := results st; printed := out ++ [PrintSkipped why] |}
  | Raise e =>
      {| results := results st; printed := out ++ [PrintError e] |}
  end.

Definition enumerate (tickers : list string) : list (nat * string) :=
  combine (seq 0 (List.length tickers)) tickers.

Definition collect (tickers : list string) : loop_state :=
  fold_left (loop_body (List.length tickers)) (enumerate tickers)
    {| results := []; printed := [Starting] |}.

(** Lines 102-125. *)
Definition final_analysis (st : loop_state) : report :=
  match results st with
  | [] => {| console := printed st ++ [NoDataCollected];
             csv := None;
             pearson_input := None |}
  | _ :: _ =>
      let df := sort_values (dropna (results st)) in
      let out := printed st ++ [SavedTo output_filename] in
      if (2 <? List.length df)%nat then
        let xs := map Mirsky_Ratio df in
        let ys := map Market_Growth_1Y_Percent df in
        let (correlation, p_value) := pearsonr xs ys in
        {| console := out ++ [StatisticalResults (List.length df) correlation p_value];
           csv := Some df;
           pearson_input := Some (xs, ys) |}
      else
        {| console := out ++ [InsufficientData];
           csv := Some df;
           pearson_input := None |}
  end.

Definition run_analysis (tickers : list string) : report :=
  final_analysis (collect tickers).

End Analysis.

End Script.

Import Script.


(** An integer too large for a float, on which [float] raises. *)
Definition too_large (c : cell) : bool :=
  match c with
  | CInt z => match float_of_int z with Ok _ => false | Raise _ => true end
  | _ => false
  end.

(** The cell [extract_scalar] passes to [float], when there is one. *)
Definition converted_cell (v : value) : option cell :=
  match v with
  | Bare c => Some c
  | Series (c :: _) => Some c
  | _ => None
  end.

(** What one ticker adds to [results], and the status it prints. *)
Definition accepted_of (o : result outcome) : list record :=
  match o with
  | Ok (Accepted r) => [r]
  | _ => []
  end.

Definition status_line (o : result outcome) : print_call :=
  match o with
  | Ok (Accepted _) => PrintOK
  | Ok (Skipped why) => PrintSkipped why
  | Raise e => PrintError e
  end.

Definition is_statistics (l : print_call) : bool :=
  match l with
  | StatisticalResults _ _ _ => true
  | _ => false
  end.

(** What the loop prints: the start banner, and a progress text and a status
    per ticker. *)
Definition is_loop_line (l : print_call) : bool :=
  match l with
  | Starting | Processing _ _ _ | PrintOK | PrintSkipped _ | PrintError _ => true
  | _ => false
  end.





(** The ticker universe of the script (lines 40-50). *)
Definition sp100_tickers : list string :=
  ["AAPL"; "MSFT"; "GOOG"; "AMZN"; "NVDA"; "META"; "TSLA"; "BRK-B"; "LLY"; "V"; "JPM"; "XOM";
   "WMT"; "UNH"; "MA"; "PG"; "JNJ"; "MRK"; "HD"; "COST"; "AVGO"; "ORCL"; "CVX"; "CRM"; "PEP";
   "KO"; "ABBV"; "ADBE"; "BAC"; "MCD"; "CSCO"; "ACN"; "TMO"; "PFE"; "LIN"; "NFLX"; "ABT";
   "AMD"; "DIS"; "WFC"; "CMCSA"; "INTC"; "VZ"; "DHR"; "NEE"; "PM"; "UPS"; "TXN"; "RTX";
   "HON"; "AMGN"; "UNP"; "LOW"; "COP"; "IBM"; "PLD"; "SPGI"; "CAT"; "GS"; "SBUX"; "DE";
   "BLK"; "ISRG"; "LMT"; "GE"; "MDLZ"; "BA"; "TJX"; "T"; "AXP"; "AMT"; "C"; "NOW"; "PYPL";
   "SCHW"; "ZTS"; "ADI"; "CVS"; "DUK"; "EOG"; "SO"; "MMC"; "PNC"; "TGT"; "BDX"; "GILD";
   "MO"; "USB"; "ADP"; "CI"; "CSX"; "FISV"; "GM"; "HCA"; "ITW"; "KMB"; "MD"; "MMM"; "PGR";
   "SHW"; "SYK"; "ANTM"].

(** The script as it is run (lines 127-128): the analysis of that list. *)
Definition main
    (float_of_str : string -> option float)
    (history : string -> result PriceHistory)
    (financials : string -> result Financials)
    (sort_values : list record -> list record)
    (pearsonr : list float -> list float -> float * float) : report :=
  run_analysis float_of_str history financials sort_values pearsonr
    sp100_tickers.

(** ** Data for examples

    A parser that knows the few literals the examples use, a stable insertion
    sort in descending ratio order, and a correlation that is not computed
    (the examples never look at its value). *)

Definition float_of_str_examples (s : string) : option float :=
  if String.eqb s "1.5" then Some 1.5
  else if String.eqb s "nan" then Some nan
  else None.

Fixpoint insert_desc (r : record) (rows : list record) : list record :=
  match rows with
  | [] => [r]
  | r' :: rest =>
      if Mirsky_Ratio r' <=? Mirsky_Ratio r then r :: rows
      else r' :: insert_desc r rest
  end.

Definition sort_desc_stable (rows : list record) : list record :=
  fold_right insert_desc [] rows.

Definition pearsonr_unused (xs ys : list float) : float * float := (nan, nan).


(** ** What the report relies on from [sort_values]

    The sort is the one of pandas, called with its default [kind].  The
    properties below use of it that it returns the rows it was given, in
    some order in which the ratios descend. *)

Definition desc (a b : record) : Prop :=
  (Mirsky_Ratio b <=? Mirsky_Ratio a) = true.

Definition ratio_not_nan (r : record) : Prop :=
  is_nan (Mirsky_Ratio r) = false.

Definition sorts_descending (sort : list record -> list record) : Prop :=
  forall rows,
    Permutation rows (sort rows) /\
    (Forall ratio_not_nan rows -> StronglySorted desc (sort rows)).


(** ** An example provider

    A handful of tickers, one for each way through the pipeline.  Statements
    are written row by row, the most recent period first. *)

Module Examples.

Definition frame_of_rows (rows : list (string * list cell)) : Financials :=
  {| fin_index := map fst rows;
     fin_columns := match rows with [] => 0 | (_, cs) :: _ => List.length cs end;
     fin_at := fun i j => nth j (snd (nth i rows ("", []))) CNone |}.

Definition statement (rnd sga : cell) : Financials :=
  frame_of_rows
    [("Total Revenue", [CFloat 1000; CFloat 900]);
     ("Research And Development", [rnd; CFloat 40]);
     ("Selling General And Administration", [sga; CFloat 180])].

Definition statement_latest (rnd sga : cell) : Financials :=
  frame_of_rows
    [("Total Revenue", [CFloat 1000]);
     ("Research And Development", [rnd]);
     ("Selling General And Administration", [sga])].

(** A statement in which the SG&A line item comes twice. *)
Definition statement_repeated_sga : Financials :=
  frame_of_rows
    [("Research And Development", [CFloat 50]);
     ("Selling General And Administration", [CFloat 200]);
     ("Selling General And Administration", [CFloat 210])].

Definition prices (ps : list float) : list cell := map CFloat ps.

Definition history (t : string) : result PriceHistory :=
  if String.eqb t "ONE" then Ok (WithClose (prices [100]))
  else if String.eqb t "DOWN" then Raise (ProviderError "connection timed out")
  else if String.eqb t "BADP" then Ok (WithClose [CStr "n/a"; CFloat 120])
  else if String.eqb t "BADE" then Ok (WithClose [CFloat 100; CNone])
  else if String.eqb t "NANP" then Ok (WithClose [CFloat 100; CFloat nan])
  else if String.eqb t "HUGE" then Ok (WithClose [CInt (10 ^ 400); CFloat 120])
  else if String.eqb t "NOCLOSE" then Ok (WithoutClose 250)
  else if String.eqb t "AAA" then Ok (WithClose (prices [100; 105; 110]))
  else if String.eqb t "BBB" then Ok (WithClose (prices [100; 90; 95]))
  else Ok (WithClose (prices [100; 110; 120])).

Definition financials (t : string) : result Financials :=
  if String.eqb t "NORD" then
    Ok (frame_of_rows
          [("Total Revenue", [CFloat 1000]);
           ("Selling General And Administration", [CFloat 200])])
  else if String.eqb t "SPEC" then
    Ok (frame_of_rows
          [("Research and Development", [CFloat 50]);
           ("Selling, General and Administrative", [CFloat 200])])
  else if String.eqb t "VOID" then Ok (frame_of_rows [])
  else if String.eqb t "ZSGA" then Ok (statement (CFloat 50) (CFloat 0))
  else if String.eqb t "NSGA" then Ok (statement (CFloat 50) (CFloat nan))
  else if String.eqb t "NRND" then Ok (statement (CFloat nan) (CFloat 200))
  else if String.eqb t "NOFIN" then Raise (ProviderError "no statement")
  else if String.eqb t "AAA" then Ok (statement (CFloat 20) (CFloat 100))
  else if String.eqb t "BBB" then Ok (statement (CFloat 40) (CFloat 100))
  else if String.eqb t "CCC" then Ok (statement (CFloat 10) (CFloat 100))
  else Ok (statement (CFloat 50) (CFloat 200)).

Definition process_ticker : string -> result outcome :=
  Script.process_ticker float_of_str_examples history financials.

Definition run (sort : list record -> list record) (tickers : list string)
    : report :=
  run_analysis float_of_str_examples history financials sort
    pearsonr_unused tickers.

End Examples.
(** ** Order facts on binary64

    Sorting by ratio needs the order of floats to be total and transitive
    away from NaN.  Both are read off the specification of the comparison
    ([SFcompare]) through [leb_spec] and [eqb_spec]. *)

Module FloatOrder.

Lemma SFcompare_refl (f : spec_float) :
  f <> S754_nan -> SFcompare f f = Some Eq.
Proof.
  destruct f as [s | s | | s m e]; cbn; intros H; try congruence.
  - now destruct s.
  - rewrite Z.compare_refl.
    change (Pos.compare_cont Eq m m) with (Pos.compare m m).
    rewrite Pos.compare_refl. now destruct s.
Qed.

Lemma is_nan_spec (x : float) :
  is_nan x = true <-> Prim2SF x = S754_nan.
Proof.
  unfold is_nan. rewrite FloatAxioms.eqb_spec. unfold SFeqb. split.
  - destruct (Prim2SF x) as [s | s | | s m e] eqn:E; auto;
      rewrite SFcompare_refl by discriminate; discriminate.
  - intros ->. reflexivity.
Qed.

Lemma not_nan_spec (x : float) : not_nan x <-> Prim2SF x <> S754_nan.
Proof.
  unfold not_nan. rewrite <- is_nan_spec. destruct (is_nan x); split; congruence.
Qed.

(** Case analysis on the integer comparisons inside [SFcompare]. *)
Ltac cmp_cases :=
  repeat match goal with
    | |- context [Z.compare ?a ?b] => destruct (Z.compare_spec a b)
    | H : context [Z.compare ?a ?b] |- _ => destruct (Z.compare_spec a b)
    | |- context [Pos.compare_cont Eq ?a ?b] =>
        change (Pos.compare_cont Eq a b) with (Pos.compare a b);
        destruct (Pos.compare_spec a b)
    | H : context [Pos.compare_cont Eq ?a ?b] |- _ =>
        change (Pos.compare_cont Eq a b) with (Pos.compare a b) in H;
        destruct (Pos.compare_spec a b)
    end.

Lemma SFleb_total (f1 f2 : spec_float) :
  f1 <> S754_nan -> f2 <> S754_nan -> SFleb f1 f2 = true \/ SFleb f2 f1 = true.
Proof.
  unfold SFleb.
  destruct f1 as [s1 | s1 | | s1 m1 e1], f2 as [s2 | s2 | | s2 m2 e2];
    cbn; intros H1 H2; try congruence;
    try destruct s1; try destruct s2; cbn; auto;
    cmp_cases; cbn; auto; subst; try lia.
Qed.

Lemma SFleb_trans (f1 f2 f3 : spec_float) :
  SFleb f1 f2 = true -> SFleb f2 f3 = true -> SFleb f1 f3 = true.
Proof.
  unfold SFleb.
  destruct f1 as [s1 | s1 | | s1 m1 e1], f2 as [s2 | s2 | | s2 m2 e2],
    f3 as [s3 | s3 | | s3 m3 e3];
    cbn; try discriminate; auto;
    try destruct s1; try destruct s2; try destruct s3; cbn;
    try discriminate; auto;
    cmp_cases; cbn; try discriminate; auto; subst; try lia.
Qed.

Lemma leb_total (x y : float) :
  not_nan x -> not_nan y -> (x <=? y) = true \/ (y <=? x) = true.
Proof.
  rewrite !not_nan_spec, !leb_spec. apply SFleb_total.
Qed.

Lemma leb_trans (x y z : float) :
  (x <=? y) = true -> (y <=? z) = true -> (x <=? z) = true.
Proof. rewrite !leb_spec. apply SFleb_trans. Qed.

(** A NaN compares equal to nothing, in particular not to zero. *)
Lemma nan_eqb_l (x y : float) : is_nan x = true -> (x =? y) = false.
Proof.
  rewrite is_nan_spec, FloatAxioms.eqb_spec. intros ->. reflexivity.
Qed.

Lemma SFltb_not_eqb (f1 f2 : spec_float) :
  SFltb f1 f2 = true -> SFeqb f2 f1 = false.
Proof.
  unfold SFltb, SFeqb.
  destruct f1 as [s1 | s1 | | s1 m1 e1], f2 as [s2 | s2 | | s2 m2 e2];
    cbn; try discriminate; auto;
    try destruct s1; try destruct s2; cbn; try discriminate; auto;
    cmp_cases; cbn; try discriminate; auto; subst; try lia.
Qed.

(** A number above zero is not a zero divisor. *)
Lemma ltb_not_eqb (x y : float) : (x <? y) = true -> (y =? x) = false.
Proof. rewrite ltb_spec, FloatAxioms.eqb_spec. apply SFltb_not_eqb. Qed.

(** A NaN is above nothing and nothing is above it. *)
Lemma ltb_nan_r (x y : float) : is_nan y = true -> (x <? y) = false.
Proof.
  rewrite is_nan_spec, ltb_spec. intros ->. unfold SFltb.
  now destruct (Prim2SF x).
Qed.

(** Arithmetic carries a NaN operand to the result. *)
Lemma sub_nan_l (x y : float) : is_nan x = true -> is_nan (x - y) = true.
Proof. rewrite !is_nan_spec, sub_spec. intros ->. reflexivity. Qed.

Lemma div_nan_l (x y : float) : is_nan x = true -> is_nan (x / y) = true.
Proof. rewrite !is_nan_spec, div_spec. intros ->. reflexivity. Qed.

Lemma mul_nan_l (x y : float) : is_nan x = true -> is_nan (x * y) = true.
Proof. rewrite !is_nan_spec, mul_spec. intros ->. reflexivity. Qed.


End FloatOrder.
(** ** Scalar extraction *)

Lemma float_of_int_raises (z : Z) (e : exn) :
  float_of_int z = Raise e -> e = OverflowError.
Proof.
  unfold float_of_int.
  destruct (binary_normalize prec emax z 0 false); congruence.
Qed.

Section ExtractScalar.

Variable float_of_str : string -> option float.

Lemma extract_scalar_bare (c : cell) :
  extract_scalar float_of_str (Bare c)
  = match c with
    | CFloat x => Ok x
    | CInt z => float_of_int z
    | CStr s => match float_of_str s with Some x => Ok x | None => Ok 0 end
    | CNone => Ok 0
    end.
Proof.
  destruct c as [x | z | s |]; try reflexivity.
  - unfold extract_scalar, py_float, try_except.
    destruct (float_of_int z) as [x | e] eqn:Hz; [reflexivity |].
    now rewrite (float_of_int_raises _ Hz).
  - unfold extract_scalar, py_float, bind, try_except.
    now destruct (float_of_str s).
Qed.

Lemma extract_scalar_series (cs : list cell) :
  extract_scalar float_of_str (Series cs)
  = match cs with
    | [] => Ok 0
    | c :: _ => extract_scalar float_of_str (Bare c)
    end.
Proof. destruct cs as [| c rest]; reflexivity. Qed.

Lemma extract_scalar_sequence (cs : list cell) :
  extract_scalar float_of_str (Sequence cs) = Ok 0.
Proof. reflexivity. Qed.

Lemma extract_scalar_frame : extract_scalar float_of_str Frame = Ok 0.
Proof. reflexivity. Qed.

(** Extraction raises in one case only: [float] is called on an integer that
    is too large, and the [OverflowError] goes through the handler. *)
Lemma extract_scalar_raises (v : value) (e : exn) :
  extract_scalar float_of_str v = Raise e <->
  e = OverflowError /\
  exists c, converted_cell v = Some c /\ too_large c = true.
Proof.
  assert (Hbare : forall c, extract_scalar float_of_str (Bare c) = Raise e <->
                            e = OverflowError /\ too_large c = true).
  { intros c. rewrite extract_scalar_bare.
    destruct c as [x | z | s |]; cbn [too_large];
      try (split; [discriminate | intros (_ & H); discriminate]).
    - destruct (float_of_int z) as [x | e'] eqn:Hz.
      + split; [discriminate | intros (_ & H); discriminate].
      + pose proof (float_of_int_raises _ Hz) as ->.
        split; [intros [= <-]; auto | intros (-> & _); reflexivity].
    - destruct (float_of_str s);
        (split; [discriminate | intros (_ & H); discriminate]). }
  destruct v as [c | [| c rest] | cs |]; cbn [converted_cell].
  - rewrite Hbare. split.
    + intros (He & Hc). split; [exact He |]. now exists c.
    + intros (He & c' & [= <-] & Hc). auto.
  - rewrite extract_scalar_series.
    split; [discriminate | intros (_ & c & H & _); discriminate].
  - rewrite extract_scalar_series, Hbare. split.
    + intros (He & Hc). split; [exact He |]. now exists c.
    + intros (He & c' & [= <-] & Hc). auto.
  - rewrite extract_scalar_sequence.
    split; [discriminate | intros (_ & c & H & _); discriminate].
  - rewrite extract_scalar_frame.
    split; [discriminate | intros (_ & c & H & _); discriminate].
Qed.

Lemma extract_scalar_returns (v : value) :
  (forall c, converted_cell v = Some c -> too_large c = false) ->
  exists x, extract_scalar float_of_str v = Ok x.
Proof.
  intros Hfits.
  destruct (extract_scalar float_of_str v) as [x | e] eqn:Hv;
    [now exists x |].
  apply extract_scalar_raises in Hv as (_ & c & Hc & Hlarge).
  rewrite (Hfits c Hc) in Hlarge. discriminate.
Qed.

End ExtractScalar.

(** C1 (as amended).  Scalar extraction returns a bare float unchanged and
    a bare integer as the float [float] makes of it; for a non-empty
    [pd.Series] it returns what it returns for the first element, the number
    itself when that is a float; it returns 0.0 for the empty series, for a
    string that [float] cannot convert, for [None], and also for a list or
    tuple (only a series is unwrapped) and for a frame.  It returns, without
    raising, on every value in which the cell handed to [float] is not an
    integer too large for a float. *)
Theorem extract_scalar_contract (float_of_str : string -> option float) :
  (forall x, extract_scalar float_of_str (Bare (CFloat x)) = Ok x) /\
  (forall z x, float_of_int z = Ok x ->
               extract_scalar float_of_str (Bare (CInt z)) = Ok x) /\
  (forall a rest, extract_scalar float_of_str (Series (CFloat a :: rest)) = Ok a) /\
  (forall c rest, extract_scalar float_of_str (Series (c :: rest))
                  = extract_scalar float_of_str (Bare c)) /\
  extract_scalar float_of_str (Series []) = Ok 0 /\
  (forall s, float_of_str s = None ->
             extract_scalar float_of_str (Bare (CStr s)) = Ok 0) /\
  extract_scalar float_of_str (Bare CNone) = Ok 0 /\
  (forall cs, extract_scalar float_of_str (Sequence cs) = Ok 0) /\
  extract_scalar float_of_str Frame = Ok 0 /\
  (forall v, (forall c, converted_cell v = Some c -> too_large c = false) ->
             exists x, extract_scalar float_of_str v = Ok x).
Proof.
  repeat split; try reflexivity.
  - intros z x Hz. rewrite extract_scalar_bare. exact Hz.
  - intros s Hs. rewrite extract_scalar_bare, Hs. reflexivity.
  - apply extract_scalar_returns.
Qed.

Lemma extract_scalar_contract_witness :
  float_of_str_examples "n/a" = None /\
  extract_scalar float_of_str_examples (Bare (CStr "n/a")) = Ok 0 /\
  extract_scalar float_of_str_examples (Series [CFloat 3; CFloat 4; CFloat 5]) = Ok 3 /\
  extract_scalar float_of_str_examples (Bare (CInt 7)) = Ok 7.
Proof.
  destruct (extract_scalar_contract float_of_str_examples)
    as (_ & Hint & Hseries & _ & _ & Hstr & _).
  split; [reflexivity | split; [| split]].
  - apply Hstr. reflexivity.
  - apply Hseries.
  - apply Hint. reflexivity.
Defined.

(** C1 as the specification words it fails in two ways.  A list is an ordered
    sequence, but only a [pd.Series] is unwrapped: the list 1.0, 2.0, 3.0
    extracts as 0.0, not as its first element.  And an integer of 401 digits
    is a bare number for which extraction does not return at all: [float]
    raises [OverflowError], which the handler of line 32 does not catch. *)
Lemma extract_scalar_as_specified_fails :
  extract_scalar float_of_str_examples
    (Sequence [CFloat 1; CFloat 2; CFloat 3]) = Ok 0 /\
  (0 =? 1) = false /\
  extract_scalar float_of_str_examples (Bare (CInt (10 ^ 400)))
  = Raise OverflowError.
Proof. repeat split; vm_compute; reflexivity. Qed.

(** ** Positions in a series and labels in an index *)

Lemma iloc_first (c : cell) (rest : list cell) : iloc (c :: rest) 0 = Ok c.
Proof.
  unfold iloc. cbn [List.length Z.ltb Z.compare].
  replace (Z.of_nat (S (List.length rest)) <=? 0)%Z with false
    by (symmetry; apply Z.leb_gt; lia).
  reflexivity.
Qed.

Lemma iloc_last (cs : list cell) (c : cell) : iloc (cs ++ [c]) (-1) = Ok c.
Proof.
  unfold iloc. rewrite length_app. cbn [List.length Z.ltb Z.compare].
  set (n := Z.of_nat (List.length cs + 1)).
  assert (Hn : (n + -1 = Z.of_nat (List.length cs))%Z) by (unfold n; lia).
  rewrite Hn.
  replace (Z.of_nat (List.length cs) <? 0)%Z with false
    by (symmetry; apply Z.ltb_ge; lia).
  replace (n <=? Z.of_nat (List.length cs))%Z with false
    by (symmetry; apply Z.leb_gt; unfold n; lia).
  cbn [orb]. rewrite Nat2Z.id, nth_error_app2 by lia.
  rewrite Nat.sub_diag. reflexivity.
Qed.

Lemma iloc_ends (hist : list cell) :
  (1 <= List.length hist)%nat ->
  exists c_first c_last,
    iloc hist 0 = Ok c_first /\ iloc hist (-1) = Ok c_last /\
    hd_error hist = Some c_first /\ last hist CNone = c_last.
Proof.
  intros Hlen. destruct hist as [| c rest]; [cbn in Hlen; lia |].
  destruct (exists_last (l := c :: rest)) as (front & c' & E); [discriminate |].
  exists c, c'. split; [| split; [| split]]; [ | | reflexivity | ].
  - apply iloc_first.
  - rewrite E. apply iloc_last.
  - rewrite E. apply last_last.
Qed.

Lemma positions_nonempty (label : string) (index : list string) (i : nat) :
  existsb (String.eqb label) index = true -> positions label index i <> [].
Proof.
  revert i. induction index as [| l rest IH]; intros i; cbn; [discriminate |].
  destruct (String.eqb label l); cbn; [discriminate | apply IH].
Qed.

Lemma loc_in_index (f : Financials) (label : string) :
  in_index label f = true -> exists row, loc f label = Ok row.
Proof.
  unfold in_index, loc. intros H.
  pose proof (positions_nonempty label (fin_index f) 0 H) as Hne.
  destruct (positions label (fin_index f) 0) as [| i [| j rest]];
    [congruence | eexists; reflexivity | eexists; reflexivity].
Qed.

(** ** The per-ticker pipeline *)

Section PerTicker.

Variable float_of_str : string -> option float.
Variable history : string -> result PriceHistory.
Variable financials : string -> result Financials.

Abbreviation extract_scalar := (extract_scalar float_of_str).
Abbreviation process_ticker := (process_ticker float_of_str history financials).

(** The guarded expression of line 71 never raises. *)
Lemma market_growth_of_returns (start_price end_price : float) :
  market_growth_of start_price end_price
  = Ok (if 0 <? start_price
        then ((end_price - start_price) / start_price) * 100
        else 0).
Proof.
  unfold market_growth_of, py_div.
  destruct (0 <? start_price) eqn:Hpos; [| reflexivity].
  rewrite (FloatOrder.ltb_not_eqb Hpos). reflexivity.
Qed.

Lemma process_ticker_history_raises (t : string) (e : exn) :
  history t = Raise e -> process_ticker t = Raise e.
Proof. unfold Script.process_ticker. intros ->. reflexivity. Qed.

Lemma process_ticker_short (t : string) (hist : PriceHistory) :
  history t = Ok hist -> (hist_len hist < 2)%nat ->
  process_ticker t = Ok (Skipped InsufficientPriceData).
Proof.
  unfold Script.process_ticker. intros -> Hlen. cbn [bind].
  apply Nat.ltb_lt in Hlen. rewrite Hlen. reflexivity.
Qed.

Lemma process_ticker_without_close (t : string) (rows : nat) :
  history t = Ok (WithoutClose rows) -> (2 <= rows)%nat ->
  process_ticker t = Raise KeyError.
Proof.
  unfold Script.process_ticker. intros -> Hlen. cbn [bind hist_len].
  apply Nat.ltb_ge in Hlen. rewrite Hlen. reflexivity.
Qed.

(** Everything the body does once the price history is long enough and has
    its Close column: each extraction either returns or raises, and so does
    the statement call. *)
Lemma process_ticker_long (t : string) (closes : list cell) :
  history t = Ok (WithClose closes) -> (2 <= List.length closes)%nat ->
  exists c_first c_last,
    hd_error closes = Some c_first /\ last closes CNone = c_last /\
    match extract_scalar (Bare c_first) with
    | Raise e => process_ticker t = Raise e
    | Ok start_price =>
    match extract_scalar (Bare c_last) with
    | Raise e => process_ticker t = Raise e
    | Ok end_price =>
    match financials t with
    | Raise e => process_ticker t = Raise e
    | Ok fin =>
        if statement_missing fin
        then process_ticker t = Ok (Skipped MissingFinancialData)
        else
          exists rnd_row sga_row,
            loc fin RND_LABEL = Ok rnd_row /\ loc fin SGA_LABEL = Ok sga_row /\
            match extract_scalar rnd_row with
            | Raise e => process_ticker t = Raise e
            | Ok rnd =>
            match extract_scalar sga_row with
            | Raise e => process_ticker t = Raise e
            | Ok sga =>
                if sga =? 0
                then process_ticker t = Ok (Skipped SGAIsZero)
                else process_ticker t
                     = Ok (Accepted
                             {| Ticker := t;
                                Mirsky_Ratio := rnd / sga;
                                Market_Growth_1Y_Percent :=
                                  if 0 <? start_price
                                  then ((end_price - start_price) / start_price) * 100
                                  else 0;
                                R_and_D := rnd;
                                SG_and_A := sga |})
            end end
    end end end.
Proof.
  intros Hhist Hlen.
  destruct (iloc_ends closes) as (c0 & cN & H0 & HN & Hhd & Hlast); [lia |].
  exists c0, cN. repeat (split; [assumption |]).
  assert (Hnot : (hist_len (WithClose closes) <? 2)%nat = false)
    by (apply Nat.ltb_ge; cbn; lia).
  unfold Script.process_ticker.
  rewrite Hhist. cbn [bind]. rewrite Hnot. cbn [close_column bind].
  rewrite H0. cbn [bind].
  destruct (extract_scalar (Bare c0)) as [s | x]; [| reflexivity]. cbn [bind].
  rewrite HN. cbn [bind].
  destruct (extract_scalar (Bare cN)) as [e | x]; [| reflexivity]. cbn [bind].
  rewrite market_growth_of_returns. cbn [bind].
  destruct (financials t) as [fin | x]; [| reflexivity]. cbn [bind].
  fold (statement_missing fin).
  destruct (statement_missing fin) eqn:Hmiss; [reflexivity |].
  unfold statement_missing in Hmiss.
  apply orb_false_elim in Hmiss as (Hmiss & Hsga).
  apply orb_false_elim in Hmiss as (_ & Hrnd).
  apply negb_false_iff in Hsga, Hrnd.
  destruct (loc_in_index _ _ Hrnd) as (rr & Hrr).
  destruct (loc_in_index _ _ Hsga) as (sr & Hsr).
  exists rr, sr. repeat (split; [assumption |]).
  rewrite Hrr. cbn [bind].
  destruct (extract_scalar rr) as [rnd | x]; [| reflexivity]. cbn [bind].
  rewrite Hsr. cbn [bind].
  destruct (extract_scalar sr) as [sga | x]; [| reflexivity]. cbn [bind].
  unfold py_div.
  destruct (sga =? 0); reflexivity.
Qed.

(** Where an outcome comes from when the block runs to its end. *)
Lemma process_ticker_completes (t : string) (o : outcome) :
  process_ticker t = Ok o ->
  exists hist,
    history t = Ok hist /\
    ((hist_len hist < 2)%nat /\ o = Skipped InsufficientPriceData
     \/ exists closes c_first c_last start_price end_price fin,
         hist = WithClose closes /\ (2 <= List.length closes)%nat /\
         hd_error closes = Some c_first /\ last closes CNone = c_last /\
         extract_scalar (Bare c_first) = Ok start_price /\
         extract_scalar (Bare c_last) = Ok end_price /\
         financials t = Ok fin /\
         (statement_missing fin = true /\ o = Skipped MissingFinancialData
          \/ exists rnd_row sga_row rnd sga,
              statement_missing fin = false /\
              loc fin RND_LABEL = Ok rnd_row /\ loc fin SGA_LABEL = Ok sga_row /\
              extract_scalar rnd_row = Ok rnd /\
              extract_scalar sga_row = Ok sga /\
              ((sga =? 0) = true /\ o = Skipped SGAIsZero
               \/ (sga =? 0) = false /\
                  o = Accepted
                        {| Ticker := t;
                           Mirsky_Ratio := rnd / sga;
                           Market_Growth_1Y_Percent :=
                             if 0 <? start_price
                             then ((end_price - start_price) / start_price) * 100
                             else 0;
                           R_and_D := rnd;
                           SG_and_A := sga |}))).
Proof.
  intros Hdone.
  destruct (history t) as [hist | x] eqn:Hhist;
    [| rewrite (process_ticker_history_raises Hhist) in Hdone; discriminate].
  exists hist. split; [reflexivity |].
  destruct (Nat.lt_ge_cases (hist_len hist) 2) as [Hlen | Hlen].
  { left. rewrite (process_ticker_short Hhist Hlen) in Hdone.
    split; [exact Hlen | congruence]. }
  right. destruct hist as [closes | rows];
    [| rewrite (process_ticker_without_close Hhist Hlen) in Hdone;
       discriminate].
  cbn [hist_len] in Hlen.
  destruct (process_ticker_long Hhist Hlen) as (c0 & cN & Hhd & Hlast & Hrest).
  destruct (extract_scalar (Bare c0)) as [s | x] eqn:Hs; [| congruence].
  destruct (extract_scalar (Bare cN)) as [e | x] eqn:He; [| congruence].
  destruct (financials t) as [fin | x] eqn:Hfin; [| congruence].
  exists closes, c0, cN, s, e, fin. repeat (split; [assumption || reflexivity |]).
  destruct (statement_missing fin) eqn:Hmiss; [left; split; congruence |].
  right. destruct Hrest as (rr & sr & Hrr & Hsr & Hrest).
  destruct (extract_scalar rr) as [rnd | x] eqn:Hrnd; [| congruence].
  destruct (extract_scalar sr) as [sga | x] eqn:Hsga; [| congruence].
  exists rr, sr, rnd, sga. repeat (split; [assumption || reflexivity |]).
  destruct (sga =? 0); [left | right]; split; congruence.
Qed.

End PerTicker.

Section InsertionSort.

Lemma insert_desc_perm (r : record) (rows : list record) :
  Permutation (r :: rows) (insert_desc r rows).
Proof.
  induction rows as [| r' rest IH]; cbn; [apply Permutation_refl |].
  destruct (Mirsky_Ratio r' <=? Mirsky_Ratio r); [apply Permutation_refl |].
  eapply perm_trans; [apply perm_swap |]. now apply perm_skip.
Qed.

Lemma insert_desc_sorted (r : record) (rows : list record) :
  ratio_not_nan r -> Forall ratio_not_nan rows ->
  StronglySorted desc rows -> StronglySorted desc (insert_desc r rows).
Proof.
  intros Hr. induction rows as [| r' rest IH]; intros Hrows Hsorted; cbn.
  - constructor; constructor.
  - inversion Hrows as [| ? ? Hr' Hrest]; subst.
    inversion Hsorted as [| ? ? Hsrest Hall]; subst.
    destruct (Mirsky_Ratio r' <=? Mirsky_Ratio r) eqn:Hle.
    + constructor; [assumption |]. constructor; [exact Hle |].
      eapply Forall_impl; [| exact Hall].
      intros x Hx. unfold desc in *. eapply FloatOrder.leb_trans; eassumption.
    + constructor; [now apply IH |].
      eapply Permutation_Forall; [apply insert_desc_perm |].
      constructor; [| assumption].
      unfold desc. destruct (FloatOrder.leb_total Hr' Hr); congruence.
Qed.

Lemma sort_desc_stable_perm (rows : list record) :
  Permutation rows (sort_desc_stable rows).
Proof.
  induction rows as [| r rest IH]; cbn; [constructor |].
  eapply perm_trans; [apply perm_skip, IH | apply insert_desc_perm].
Qed.

Lemma sort_desc_stable_sorted (rows : list record) :
  Forall ratio_not_nan rows -> StronglySorted desc (sort_desc_stable rows).
Proof.
  induction rows as [| r rest IH]; intros Hrows; cbn; [constructor |].
  inversion Hrows; subst.
  apply insert_desc_sorted; auto.
  eapply Permutation_Forall; [apply sort_desc_stable_perm | assumption].
Qed.

Lemma sort_desc_stable_ok : sorts_descending sort_desc_stable.
Proof.
  intros rows. split;
    [apply sort_desc_stable_perm | apply sort_desc_stable_sorted].
Qed.

End InsertionSort.

(** ** The acceptance filter *)

Section AcceptanceFilter.

Variable float_of_str : string -> option float.
Variable history : string -> result PriceHistory.
Variable financials : string -> result Financials.

Abbreviation extract_scalar := (extract_scalar float_of_str).
Abbreviation process_ticker := (process_ticker float_of_str history financials).



(** What the block can raise: what the provider raised, [KeyError] for a
    history without its Close column, or [OverflowError] out of an
    extraction. *)
Lemma process_ticker_raises (t : string) (e : exn) :
  process_ticker t = Raise e ->
  history t = Raise e \/ financials t = Raise e
  \/ (e = KeyError /\
      exists rows, history t = Ok (WithoutClose rows) /\ (2 <= rows)%nat)
  \/ (e = OverflowError /\
      exists closes,
        history t = Ok (WithClose closes) /\ (2 <= List.length closes)%nat).
Proof.
  intros Hraise. destruct (history t) as [hist | x] eqn:Hhist.
  - destruct (Nat.lt_ge_cases (hist_len hist) 2) as [Hlen | Hlen].
    + rewrite (process_ticker_short _ _ financials _ Hhist Hlen) in Hraise.
      discriminate.
    + destruct hist as [closes | rows].
      * cbn [hist_len] in Hlen.
        assert (Hover : forall v, extract_scalar v = Raise e ->
                  e = OverflowError /\
                  exists closes0,
                    Ok (WithClose closes) = Ok (WithClose closes0) /\
                    (2 <= List.length closes0)%nat).
        { intros v Hv. apply extract_scalar_raises in Hv as (-> & _).
          split; [reflexivity |]. now exists closes. }
        destruct (process_ticker_long float_of_str _ financials _ Hhist Hlen)
          as (c0 & cN & _ & _ & Hrest).
        destruct (extract_scalar (Bare c0)) as [s | x] eqn:Hs;
          [| right; right; right; apply (Hover (Bare c0)); congruence].
        destruct (extract_scalar (Bare cN)) as [en | x] eqn:He;
          [| right; right; right; apply (Hover (Bare cN)); congruence].
        destruct (financials t) as [fin | y]; [| right; left; congruence].
        destruct (statement_missing fin); [congruence |].
        destruct Hrest as (rr & sr & _ & _ & Hrest).
        destruct (extract_scalar rr) as [rnd | x] eqn:Hrnd;
          [| right; right; right; apply (Hover rr); congruence].
        destruct (extract_scalar sr) as [sga | x] eqn:Hsga;
          [| right; right; right; apply (Hover sr); congruence].
        destruct (sga =? 0); congruence.
      * cbn [hist_len] in Hlen.
        rewrite (process_ticker_without_close _ _ financials _ Hhist Hlen)
          in Hraise.
        right; right; left. split; [congruence |]. now exists rows.
  - left. rewrite (process_ticker_history_raises _ _ financials _ Hhist) in Hraise.
    congruence.
Qed.

End AcceptanceFilter.




(** ** Growth and ratio of an accepted record *)

Section AcceptedRecord.

Variable float_of_str : string -> option float.
Variable history : string -> result PriceHistory.
Variable financials : string -> result Financials.

Abbreviation extract_scalar := (extract_scalar float_of_str).
Abbreviation process_ticker := (process_ticker float_of_str history financials).

(** Where an accepted record comes from. *)
Lemma process_ticker_accepted (t : string) (r : record) :
  process_ticker t = Ok (Accepted r) ->
  exists hist fin c_first c_last start_price end_price rnd_row sga_row rnd sga,
    history t = Ok (WithClose hist) /\ (2 <= List.length hist)%nat /\
    financials t = Ok fin /\ statement_missing fin = false /\
    hd_error hist = Some c_first /\ last hist CNone = c_last /\
    extract_scalar (Bare c_first) = Ok start_price /\
    extract_scalar (Bare c_last) = Ok end_price /\
    loc fin RND_LABEL = Ok rnd_row /\ loc fin SGA_LABEL = Ok sga_row /\
    extract_scalar rnd_row = Ok rnd /\ extract_scalar sga_row = Ok sga /\
    (sga =? 0) = false /\
    r = {| Ticker := t;
           Mirsky_Ratio := rnd / sga;
           Market_Growth_1Y_Percent :=
             if 0 <? start_price
             then ((end_price - start_price) / start_price) * 100
             else 0;
           R_and_D := rnd;
           SG_and_A := sga |}.
Proof.
  intros Hacc.
  destruct (process_ticker_completes _ _ _ _ Hacc)
    as (hist & Hhist & [(_ & Ho) | Hrest]); [discriminate |].
  destruct Hrest as (closes & c0 & cN & s & e & fin & -> & Hlen & Hhd & Hlast
                     & Hs & He & Hfin & [(_ & Ho) | Hrest]); [discriminate |].
  destruct Hrest as (rr & sr & rnd & sga & Hmiss & Hrr & Hsr & Hrnd & Hsga
                     & [(_ & Ho) | (Hzero & Ho)]); [discriminate |].
  exists closes, fin, c0, cN, s, e, rr, sr, rnd, sga.
  repeat (split; [assumption || reflexivity |]). congruence.
Qed.

(** The growth of the record a ticker yields, from its first and last
    close. *)
Lemma accepted_growth (t : string) (closes : list cell) (r : record) :
  history t = Ok (WithClose closes) ->
  process_ticker t = Ok (Accepted r) ->
  exists c_first c_last start_price end_price,
    hd_error closes = Some c_first /\ last closes CNone = c_last /\
    extract_scalar (Bare c_first) = Ok start_price /\
    extract_scalar (Bare c_last) = Ok end_price /\
    Market_Growth_1Y_Percent r
    = if 0 <? start_price
      then ((end_price - start_price) / start_price) * 100
      else 0.
Proof.
  intros Hhist Hacc.
  destruct (process_ticker_accepted _ Hacc)
    as (hist' & fin & c0 & cN & s & e & rr & sr & rnd & sga
        & Hhist' & _ & _ & _ & Hhd & Hlast & Hs & He & _ & _ & _ & _ & _ & ->).
  assert (hist' = closes) by congruence; subst hist'.
  exists c0, cN, s, e. repeat (split; [assumption |]). reflexivity.
Qed.

End AcceptedRecord.

(** C4.  The growth expression returns
    [(end - start) / start * 100] when [start > 0] and [0] otherwise, and
    never raises: in particular 100 and 120 give 20.0, and a start of 0 gives
    0 whatever the end.  For every ticker with at least two observations the
    first and the last close are what is extracted (and they are extracted
    whenever neither is an integer too large for a float), and the growth of
    the record the ticker yields is that expression on the two extracted
    prices. *)
Theorem growth_percentage (float_of_str : string -> option float) :
  (forall start_price end_price,
      market_growth_of start_price end_price
      = Ok (if 0 <? start_price
            then ((end_price - start_price) / start_price) * 100
            else 0)) /\
  market_growth_of 100 120 = Ok 20 /\
  (forall end_price, market_growth_of 0 end_price = Ok 0) /\
  (forall history financials t hist,
      history t = Ok (WithClose hist) -> (2 <= List.length hist)%nat ->
      exists c_first c_last,
        hd_error hist = Some c_first /\ last hist CNone = c_last /\
        (too_large c_first = false -> too_large c_last = false ->
         exists start_price end_price,
           extract_scalar float_of_str (Bare c_first) = Ok start_price /\
           extract_scalar float_of_str (Bare c_last) = Ok end_price) /\
        forall r,
          process_ticker float_of_str history financials t = Ok (Accepted r) ->
          exists start_price end_price,
            extract_scalar float_of_str (Bare c_first) = Ok start_price /\
            extract_scalar float_of_str (Bare c_last) = Ok end_price /\
            Market_Growth_1Y_Percent r
            = if 0 <? start_price
              then ((end_price - start_price) / start_price) * 100
              else 0).
Proof.
  split; [apply market_growth_of_returns |].
  split; [reflexivity |]. split; [reflexivity |].
  intros history financials t hist Hhist Hlen.
  destruct (iloc_ends hist) as (c0 & cN & _ & _ & Hhd & Hlast); [lia |].
  exists c0, cN. split; [exact Hhd |]. split; [exact Hlast |]. split.
  - intros H0 HN.
    destruct (extract_scalar_returns float_of_str (Bare c0)) as (s & Hs);
      [intros c [= <-]; exact H0 |].
    destruct (extract_scalar_returns float_of_str (Bare cN)) as (e & He);
      [intros c [= <-]; exact HN |].
    now exists s, e.
  - intros r Hacc.
    destruct (@accepted_growth float_of_str history financials t hist r Hhist Hacc)
      as (c0' & cN' & s & e & Hhd' & Hlast' & Hs & He & Hgrowth).
    assert (E0 : c0' = c0) by congruence.
    assert (EN : cN' = cN) by congruence.
    rewrite E0 in Hs. rewrite EN in He.
    exists s, e. split; [exact Hs | split; [exact He | exact Hgrowth]].
Qed.

Lemma growth_percentage_witness :
  exists r,
    Examples.process_ticker "ACME" = Ok (Accepted r) /\
    Market_Growth_1Y_Percent r = 20.
Proof.
  destruct (proj2 (proj2 (proj2 (growth_percentage float_of_str_examples)))
              Examples.history Examples.financials "ACME"
              (Examples.prices [100; 110; 120]) eq_refl)
    as (c0 & cN & Hhd & Hlast & _ & Hgrowth).
  - cbn. lia.
  - eexists. split; [vm_compute; reflexivity |].
    destruct (Hgrowth _ eq_refl) as (s & e & Hs & He & Hg).
    injection Hhd as <-. cbn in Hlast. subst cN.
    vm_compute in Hs. injection Hs as <-.
    vm_compute in He. injection He as <-.
    exact Hg.
Defined.

(** C5.  An accepted record has an SG&A that is not 0.0; its ratio is the
    division of its R&D by its SG&A, which returned without raising; and the
    two figures are what scalar extraction returns for the two rows of the
    statement.  The pipeline raises [ZeroDivisionError] only if the provider
    did.  R&D 50 over SG&A 200 is 0.25. *)
Theorem ratio_division_guarded
    (float_of_str : string -> option float)
    (history : string -> result PriceHistory)
    (financials : string -> result Financials) (t : string) :
  (forall r,
      process_ticker float_of_str history financials t = Ok (Accepted r) ->
      (SG_and_A r =? 0) = false /\
      py_div (R_and_D r) (SG_and_A r) = Ok (Mirsky_Ratio r) /\
      Mirsky_Ratio r = R_and_D r / SG_and_A r /\
      exists fin rnd_row sga_row,
        financials t = Ok fin /\
        loc fin RND_LABEL = Ok rnd_row /\ loc fin SGA_LABEL = Ok sga_row /\
        extract_scalar float_of_str rnd_row = Ok (R_and_D r) /\
        extract_scalar float_of_str sga_row = Ok (SG_and_A r)) /\
  (process_ticker float_of_str history financials t = Raise ZeroDivisionError ->
   history t = Raise ZeroDivisionError \/ financials t = Raise ZeroDivisionError) /\
  py_div 50 200 = Ok 0.25.
Proof.
  split; [| split; [| reflexivity]].
  2: { intros Hraise.
       destruct (process_ticker_raises _ _ _ _ Hraise)
         as [H | [H | [(H & _) | (H & _)]]]; auto; discriminate. }
  intros r Hacc.
  destruct (process_ticker_accepted _ _ _ _ Hacc)
    as (hist & fin & c0 & cN & s & e & rr & sr & rnd & sga
        & _ & _ & Hfin & _ & _ & _ & _ & _ & Hrr & Hsr & Hrnd & Hsga & Hzero & ->).
  cbn [SG_and_A R_and_D Mirsky_Ratio].
  split; [exact Hzero |]. split; [unfold py_div; now rewrite Hzero |].
  split; [reflexivity |].
  exists fin, rr, sr. repeat (split; [assumption |]). assumption.
Qed.

Lemma ratio_division_guarded_witness :
  exists r,
    Examples.process_ticker "ACME" = Ok (Accepted r) /\
    R_and_D r = 50 /\ SG_and_A r = 200 /\ Mirsky_Ratio r = 0.25.
Proof.
  eexists. split; [vm_compute; reflexivity |].
  destruct (proj1 (ratio_division_guarded float_of_str_examples
                     Examples.history Examples.financials "ACME") _ eq_refl)
    as (_ & _ & Hratio & _).
  split; [reflexivity |]. split; [reflexivity |].
  exact Hratio.
Defined.

(** ** Price values and the decision *)


(** C10.  A price value can decide by itself.  The history of HUGE has two
    observations, so it passes the length check; its first close is an
    integer of 401 digits, which [float] cannot convert.  Extraction does not
    return 0.0 for it, as its docstring says it does for a value that cannot
    be converted: [OverflowError] is not among the exceptions caught at line
    32, so it leaves [extract_scalar] and the block, and the ticker yields no
    record.  With 100 as first close and the same statement the ticker is
    accepted. *)
Theorem oversized_close_raises :
  Examples.history "HUGE" = Ok (WithClose [CInt (10 ^ 400); CFloat 120]) /\
  (hist_len (WithClose [CInt (10 ^ 400); CFloat 120]) <? 2)%nat = false /\
  extract_scalar float_of_str_examples (Bare (CInt (10 ^ 400)))
  = Raise OverflowError /\
  Examples.process_ticker "HUGE" = Raise OverflowError /\
  accepted_of (Examples.process_ticker "HUGE") = [] /\
  exists r,
    process_ticker float_of_str_examples
      (fun _ => Ok (WithClose [CFloat 100; CFloat 120]))
      Examples.financials "HUGE"
    = Ok (Accepted r).
Proof.
  repeat split; try (vm_compute; reflexivity).
  eexists. vm_compute. reflexivity.
Qed.

(** ** The loop over the tickers *)

Section Loop.

Variable float_of_str : string -> option float.
Variable history : string -> result PriceHistory.
Variable financials : string -> result Financials.

Abbreviation process_ticker := (process_ticker float_of_str history financials).
Abbreviation loop_body := (loop_body float_of_str history financials).
Abbreviation collect := (collect float_of_str history financials).

Lemma loop_body_results (total : nat) (st : loop_state) (i : nat) (t : string) :
  results (loop_body total st (i, t))
  = results st ++ accepted_of (process_ticker t).
Proof.
  unfold Script.loop_body.
  destruct (process_ticker t) as [[why | r] | e]; cbn;
    rewrite ?app_nil_r; reflexivity.
Qed.

Lemma loop_body_printed (total : nat) (st : loop_state) (i : nat) (t : string) :
  printed (loop_body total st (i, t))
  = printed st ++ [Processing (i + 1) total t; status_line (process_ticker t)].
Proof.
  unfold Script.loop_body.
  destruct (process_ticker t) as [[why | r] | e]; cbn;
    rewrite <- app_assoc; reflexivity.
Qed.

Lemma fold_results (total : nat) (its : list (nat * string)) (st : loop_state) :
  results (fold_left (loop_body total) its st)
  = results st ++ flat_map (fun it => accepted_of (process_ticker (snd it))) its.
Proof.
  revert st. induction its as [| [i t] its IH]; intros st; cbn [fold_left flat_map].
  - now rewrite app_nil_r.
  - rewrite IH, loop_body_results, <- app_assoc. reflexivity.
Qed.

Lemma fold_printed (total : nat) (its : list (nat * string)) (st : loop_state) :
  printed (fold_left (loop_body total) its st)
  = printed st
    ++ flat_map (fun it => [Processing (fst it + 1) total (snd it);
                            status_line (process_ticker (snd it))]) its.
Proof.
  revert st. induction its as [| [i t] its IH]; intros st; cbn [fold_left flat_map].
  - now rewrite app_nil_r.
  - rewrite IH, loop_body_printed, <- app_assoc. reflexivity.
Qed.

Lemma flat_map_enumerate (A : Type) (f : string -> list A)
    (tickers : list string) (start : nat) :
  flat_map (fun it : nat * string => f (snd it))
    (combine (seq start (List.length tickers)) tickers)
  = flat_map f tickers.
Proof.
  revert start. induction tickers as [| t rest IH]; intros start; cbn;
    [reflexivity | now rewrite IH].
Qed.

Lemma in_enumerate (tickers : list string) (t : string) (start : nat) :
  In t tickers ->
  exists i, In (i, t) (combine (seq start (List.length tickers)) tickers).
Proof.
  revert start. induction tickers as [| t' rest IH]; intros start Hin;
    [contradiction |].
  destruct Hin as [-> | Hin].
  - exists start. now left.
  - destruct (IH (S start) Hin) as (i & Hi). exists i. now right.
Qed.

(** [results] after the loop: what each ticker yields, in list order. *)
Lemma collect_results (tickers : list string) :
  results (collect tickers)
  = flat_map (fun t => accepted_of (process_ticker t)) tickers.
Proof.
  unfold Script.collect, enumerate. rewrite fold_results. cbn [results app].
  apply (flat_map_enumerate (fun t => accepted_of (process_ticker t))).
Qed.

Lemma collect_results_app (before after : list string) :
  results (collect (before ++ after))
  = results (collect before) ++ results (collect after).
Proof. rewrite !collect_results. apply flat_map_app. Qed.

Lemma collect_printed (tickers : list string) :
  printed (collect tickers)
  = Starting
    :: flat_map (fun it => [Processing (fst it + 1) (List.length tickers) (snd it);
                            status_line (process_ticker (snd it))])
         (enumerate tickers).
Proof. unfold Script.collect. rewrite fold_printed. reflexivity. Qed.

Lemma collect_printed_ticker (tickers : list string) (t : string) :
  In t tickers ->
  exists i,
    In (Processing (i + 1) (List.length tickers) t) (printed (collect tickers)) /\
    In (status_line (process_ticker t)) (printed (collect tickers)).
Proof.
  intros Hin. destruct (in_enumerate tickers t 0 Hin) as (i & Hi).
  exists i. rewrite collect_printed.
  split; right; apply in_flat_map; exists (i, t); (split; [exact Hi |]); cbn; auto.
Qed.

Lemma collect_printed_no_statistics (tickers : list string) :
  existsb is_statistics (printed (collect tickers)) = false.
Proof.
  rewrite collect_printed. cbn [existsb is_statistics orb].
  induction (enumerate tickers) as [| [i t] its IH]; cbn [flat_map app existsb];
    [reflexivity |].
  rewrite IH.
  destruct (process_ticker (snd (i, t))) as [[why | r] | e]; reflexivity.
Qed.

Lemma collect_results_nil (tickers : list string) :
  (forall t r, In t tickers -> process_ticker t <> Ok (Accepted r)) ->
  results (collect tickers) = [].
Proof.
  intros Hnone. rewrite collect_results.
  induction tickers as [| t rest IH]; cbn [flat_map]; [reflexivity |].
  rewrite IH by (intros t' r Hin; apply Hnone; now right).
  destruct (process_ticker t) as [[why | r] | e] eqn:Hp; try reflexivity.
  elim (Hnone t r); [now left | exact Hp].
Qed.

End Loop.

(** C8.  The records collected by the loop are what each ticker yields on its
    own, in list order.  When a ticker raises, the exception is printed as
    that ticker's status, the loop goes on, and the records collected are
    those of the tickers before it followed by those of the tickers after it,
    the same as if the failing ticker were not in the list.  Every ticker of
    the list gets its progress text and its status. *)
Theorem failure_isolation
    (float_of_str : string -> option float)
    (history : string -> result PriceHistory)
    (financials : string -> result Financials) :
  (forall tickers,
      results (collect float_of_str history financials tickers)
      = flat_map
          (fun t => accepted_of (process_ticker float_of_str history financials t))
          tickers) /\
  (forall tickers t,
      In t tickers ->
      exists i,
        In (Processing (i + 1) (List.length tickers) t)
           (printed (collect float_of_str history financials tickers)) /\
        In (status_line (process_ticker float_of_str history financials t))
           (printed (collect float_of_str history financials tickers))) /\
  (forall before x after e,
      process_ticker float_of_str history financials x = Raise e ->
      let st := collect float_of_str history financials (before ++ x :: after) in
      In (PrintError e) (printed st) /\
      results st
      = results (collect float_of_str history financials before)
        ++ results (collect float_of_str history financials after) /\
      results st
      = results (collect float_of_str history financials (before ++ after))).
Proof.
  split; [apply collect_results |]. split; [apply collect_printed_ticker |].
  intros before x after e Hraise st. subst st.
  split; [| split].
  - destruct (collect_printed_ticker float_of_str history financials
                (before ++ x :: after) x) as (i & _ & Hstatus).
    + apply in_elt.
    + now rewrite Hraise in Hstatus.
  - rewrite collect_results_app.
    change (x :: after) with ([x] ++ after).
    rewrite collect_results_app, (collect_results _ _ _ [x]).
    cbn [flat_map]. rewrite Hraise. reflexivity.
  - rewrite !collect_results, !flat_map_app. cbn [flat_map].
    rewrite Hraise. reflexivity.
Qed.

Lemma failure_isolation_witness :
  Examples.process_ticker "DOWN" = Raise (ProviderError "connection timed out") /\
  map Ticker
    (results (collect float_of_str_examples Examples.history Examples.financials
                ["AAA"; "DOWN"; "BBB"]))
  = ["AAA"; "BBB"] /\
  In (PrintError (ProviderError "connection timed out"))
     (printed (collect float_of_str_examples Examples.history Examples.financials
                 ["AAA"; "DOWN"; "BBB"])).
Proof.
  split; [reflexivity |].
  destruct (proj2 (proj2 (failure_isolation float_of_str_examples
                            Examples.history Examples.financials))
              ["AAA"] "DOWN" ["BBB"] _ eq_refl) as (Hprinted & Hresults & _).
  split; [| exact Hprinted].
  cbn [app] in Hresults. rewrite Hresults. vm_compute. reflexivity.
Defined.

(** ** Aggregation: the frame, the file and the correlation *)

Lemma dropna_complete (rows : list record) :
  Forall (fun r => has_na r = false) (dropna rows).
Proof.
  apply Forall_forall. intros r Hin. unfold dropna in Hin.
  apply filter_In in Hin as (_ & Hkeep). now apply negb_true_iff.
Qed.

Lemma complete_columns (rows : list record) :
  Forall (fun r => has_na r = false) rows ->
  Forall not_nan (map Mirsky_Ratio rows) /\
  Forall not_nan (map Market_Growth_1Y_Percent rows).
Proof.
  intros Hrows. split; apply Forall_map; eapply Forall_impl; try exact Hrows;
    intros r H; unfold has_na in H; unfold not_nan;
    repeat (apply orb_false_elim in H as (H & ?)); assumption.
Qed.

Section Aggregation.

Variable sort_values : list record -> list record.
Variable pearsonr : list float -> list float -> float * float.

Abbreviation final_analysis := (final_analysis sort_values pearsonr).

Lemma final_analysis_empty (st : loop_state) :
  results st = [] ->
  final_analysis st
  = {| console := printed st ++ [NoDataCollected];
       csv := None;
       pearson_input := None |}.
Proof. unfold Script.final_analysis. intros ->. reflexivity. Qed.

Lemma final_analysis_statistics (st : loop_state) :
  results st <> [] ->
  let df := sort_values (dropna (results st)) in
  let xs := map Mirsky_Ratio df in
  let ys := map Market_Growth_1Y_Percent df in
  (2 < List.length df)%nat ->
  final_analysis st
  = {| console := printed st
                  ++ [SavedTo output_filename;
                      StatisticalResults (List.length df)
                        (fst (pearsonr xs ys)) (snd (pearsonr xs ys))];
       csv := Some df;
       pearson_input := Some (xs, ys) |}.
Proof.
  intros Hne df xs ys Hlen. unfold Script.final_analysis.
  destruct (results st) as [| r rest] eqn:Hres; [congruence |].
  fold df. apply Nat.ltb_lt in Hlen. rewrite Hlen. fold xs ys.
  destruct (pearsonr xs ys) as [c p]. cbn [fst snd].
  rewrite <- app_assoc. reflexivity.
Qed.

Lemma final_analysis_insufficient (st : loop_state) :
  results st <> [] ->
  let df := sort_values (dropna (results st)) in
  (List.length df <= 2)%nat ->
  final_analysis st
  = {| console := printed st ++ [SavedTo output_filename; InsufficientData];
       csv := Some df;
       pearson_input := None |}.
Proof.
  intros Hne df Hlen. unfold Script.final_analysis.
  destruct (results st) as [| r rest] eqn:Hres; [congruence |].
  fold df. apply Nat.ltb_ge in Hlen. rewrite Hlen.
  rewrite <- app_assoc. reflexivity.
Qed.

(** Whatever is written to the file is the sorted frame. *)
Lemma final_analysis_csv (st : loop_state) (df : list record) :
  csv (final_analysis st) = Some df ->
  results st <> [] /\ df = sort_values (dropna (results st)).
Proof.
  destruct (results st) as [| r rest] eqn:Hres.
  - rewrite (final_analysis_empty _ Hres). discriminate.
  - assert (Hne : results st <> []) by congruence.
    destruct (Nat.lt_ge_cases 2 (List.length (sort_values (dropna (results st)))))
      as [Hlen | Hlen].
    + rewrite (final_analysis_statistics _ Hne Hlen). cbn.
      intros [= <-]. now rewrite Hres.
    + rewrite (final_analysis_insufficient _ Hne Hlen). cbn.
      intros [= <-]. now rewrite Hres.
Qed.

Lemma final_analysis_pearson (st : loop_state) (xs ys : list float) :
  pearson_input (final_analysis st) = Some (xs, ys) ->
  exists df, csv (final_analysis st) = Some df /\
             xs = map Mirsky_Ratio df /\ ys = map Market_Growth_1Y_Percent df.
Proof.
  destruct (results st) as [| r rest] eqn:Hres.
  - rewrite (final_analysis_empty _ Hres). discriminate.
  - assert (Hne : results st <> []) by congruence.
    destruct (Nat.lt_ge_cases 2 (List.length (sort_values (dropna (results st)))))
      as [Hlen | Hlen].
    + rewrite (final_analysis_statistics _ Hne Hlen). cbn.
      intros [= <- <-]. eexists. repeat split.
    + rewrite (final_analysis_insufficient _ Hne Hlen). discriminate.
Qed.

End Aggregation.

(** ** The report *)

(** C7.  When no ticker of the list is accepted, the run ends with the
    no-data notice right after the per-ticker lines: no file is written,
    the correlation is not computed and no statistics line is printed. *)
Theorem no_data_collected
    (float_of_str : string -> option float)
    (history : string -> result PriceHistory)
    (financials : string -> result Financials)
    (sort_values : list record -> list record)
    (pearsonr : list float -> list float -> float * float)
    (tickers : list string) :
  (forall t r, In t tickers ->
               process_ticker float_of_str history financials t
               <> Ok (Accepted r)) ->
  let rep := run_analysis float_of_str history financials sort_values
               pearsonr tickers in
  csv rep = None /\
  pearson_input rep = None /\
  console rep
  = printed (collect float_of_str history financials tickers)
    ++ [NoDataCollected] /\
  existsb is_statistics (console rep) = false.
Proof.
  intros Hnone rep. subst rep. unfold run_analysis.
  rewrite (final_analysis_empty _ _ _ (collect_results_nil _ _ _ _ Hnone)).
  cbn [csv pearson_input console]. repeat split.
  rewrite existsb_app, collect_printed_no_statistics. reflexivity.
Qed.

Lemma no_data_collected_witness :
  Examples.run sort_desc_stable ["ONE"; "DOWN"; "ZSGA"]
  = {| console :=
         [Starting;
          Processing 1 3 "ONE"; PrintSkipped InsufficientPriceData;
          Processing 2 3 "DOWN"; PrintError (ProviderError "connection timed out");
          Processing 3 3 "ZSGA"; PrintSkipped SGAIsZero;
          NoDataCollected];
       csv := None;
       pearson_input := None |}.
Proof.
  destruct (no_data_collected float_of_str_examples Examples.history
              Examples.financials sort_desc_stable pearsonr_unused
              ["ONE"; "DOWN"; "ZSGA"]) as (Hcsv & Hpearson & Hconsole & _).
  - intros t r [<- | [<- | [<- | []]]]; vm_compute; discriminate.
  - unfold Examples.run.
    destruct (run_analysis float_of_str_examples Examples.history
                Examples.financials sort_desc_stable pearsonr_unused
                ["ONE"; "DOWN"; "ZSGA"]) as [c f p].
    cbn [csv pearson_input console] in *. subst c f p.
    vm_compute. reflexivity.
Defined.

(** C6 (as amended).  With a sort that returns its rows in descending order,
    the correlation is computed, and a statistics line printed, exactly when
    more than two records are left after the rows with a missing value are
    dropped.  Then the line carries that number of records and the two
    values [pearsonr] returned for the ratio and growth columns of the
    sorted frame.  When at least one record was accepted and two or fewer
    are left, the frame is written all the same, the correlation is not
    computed and the insufficient-data notice is printed. *)
Theorem correlation_threshold
    (float_of_str : string -> option float)
    (history : string -> result PriceHistory)
    (financials : string -> result Financials)
    (sort_values : list record -> list record)
    (pearsonr : list float -> list float -> float * float)
    (tickers : list string) :
  sorts_descending sort_values ->
  let st := collect float_of_str history financials tickers in
  let rep := run_analysis float_of_str history financials sort_values
               pearsonr tickers in
  let kept := dropna (results st) in
  (pearson_input rep <> None <-> (2 < List.length kept)%nat) /\
  (existsb is_statistics (console rep) = true <-> (2 < List.length kept)%nat) /\
  ((2 < List.length kept)%nat ->
   exists df,
     csv rep = Some df /\ Permutation kept df /\
     pearson_input rep
     = Some (map Mirsky_Ratio df, map Market_Growth_1Y_Percent df) /\
     console rep
     = printed st
       ++ [SavedTo output_filename;
           StatisticalResults (List.length kept)
             (fst (pearsonr (map Mirsky_Ratio df)
                     (map Market_Growth_1Y_Percent df)))
             (snd (pearsonr (map Mirsky_Ratio df)
                     (map Market_Growth_1Y_Percent df)))]) /\
  (results st <> [] -> (List.length kept <= 2)%nat ->
   exists df,
     csv rep = Some df /\ Permutation kept df /\
     pearson_input rep = None /\
     console rep = printed st ++ [SavedTo output_filename; InsufficientData]).
Proof.
  intros Hsort st rep kept.
  destruct (Hsort kept) as (Hperm & _).
  pose proof (Permutation_length Hperm) as Hlen.
  assert (Hstat : (2 < List.length kept)%nat ->
            rep = {| console :=
                       printed st
                       ++ [SavedTo output_filename;
                           StatisticalResults (List.length kept)
                             (fst (pearsonr (map Mirsky_Ratio (sort_values kept))
                                     (map Market_Growth_1Y_Percent (sort_values kept))))
                             (snd (pearsonr (map Mirsky_Ratio (sort_values kept))
                                     (map Market_Growth_1Y_Percent (sort_values kept))))];
                     csv := Some (sort_values kept);
                     pearson_input :=
                       Some (map Mirsky_Ratio (sort_values kept),
                             map Market_Growth_1Y_Percent (sort_values kept)) |}).
  { intros Hmany. subst rep. unfold run_analysis. fold st.
    assert (Hne : results st <> []).
    { intros Hnil. unfold kept in Hmany. rewrite Hnil in Hmany. cbn in Hmany. lia. }
    rewrite (final_analysis_statistics sort_values pearsonr _ Hne)
      by (fold kept; lia).
    fold kept. rewrite <- Hlen. reflexivity. }
  assert (Hfew : results st <> [] -> (List.length kept <= 2)%nat ->
            rep = {| console :=
                       printed st ++ [SavedTo output_filename; InsufficientData];
                     csv := Some (sort_values kept);
                     pearson_input := None |}).
  { intros Hne Hle. subst rep. unfold run_analysis. fold st.
    rewrite (final_analysis_insufficient sort_values pearsonr _ Hne)
      by (fold kept; lia).
    reflexivity. }
  assert (Hnone : results st = [] ->
            rep = {| console := printed st ++ [NoDataCollected];
                     csv := None; pearson_input := None |}).
  { intros Hnil. subst rep. unfold run_analysis. fold st.
    now apply final_analysis_empty. }
  assert (Hquiet : existsb is_statistics (printed st) = false)
    by apply collect_printed_no_statistics.
  assert (Hcases : (2 < List.length kept)%nat
                   \/ (results st <> [] /\ (List.length kept <= 2)%nat)
                   \/ (results st = [] /\ (List.length kept <= 2)%nat)).
  { destruct (Nat.lt_ge_cases 2 (List.length kept)) as [H | H]; [now left |].
    right. destruct (results st) eqn:E; [right | left]; split;
      congruence || assumption. }
  split; [| split; [| split]].
  - destruct Hcases as [H | [(Hne & H) | (Hnil & H)]].
    + rewrite (Hstat H). cbn. split; [intros _; exact H | discriminate].
    + rewrite (Hfew Hne H). cbn. split; [congruence | lia].
    + rewrite (Hnone Hnil). cbn. split; [congruence | lia].
  - destruct Hcases as [H | [(Hne & H) | (Hnil & H)]].
    + rewrite (Hstat H). cbn [console]. rewrite existsb_app, Hquiet. cbn.
      split; [intros _; exact H | reflexivity].
    + rewrite (Hfew Hne H). cbn [console]. rewrite existsb_app, Hquiet. cbn.
      split; [discriminate | lia].
    + rewrite (Hnone Hnil). cbn [console]. rewrite existsb_app, Hquiet. cbn.
      split; [discriminate | lia].
  - intros H. exists (sort_values kept). rewrite (Hstat H). cbn. auto.
  - intros Hne H. exists (sort_values kept). rewrite (Hfew Hne H). cbn. auto.
Qed.

Lemma correlation_threshold_witness :
  pearson_input (Examples.run sort_desc_stable ["AAA"; "DOWN"; "BBB"; "CCC"])
  <> None /\
  (exists df,
      csv (Examples.run sort_desc_stable ["AAA"; "NSGA"; "BBB"]) = Some df /\
      pearson_input (Examples.run sort_desc_stable ["AAA"; "NSGA"; "BBB"]) = None).
Proof.
  split.
  - destruct (correlation_threshold float_of_str_examples Examples.history
                Examples.financials pearsonr_unused
                ["AAA"; "DOWN"; "BBB"; "CCC"] sort_desc_stable_ok)
      as (Hiff & _).
    apply Hiff. vm_compute. lia.
  - destruct (correlation_threshold float_of_str_examples Examples.history
                Examples.financials pearsonr_unused
                ["AAA"; "NSGA"; "BBB"] sort_desc_stable_ok)
      as (_ & _ & _ & Hfew).
    destruct Hfew as (df & Hcsv & _ & Hpearson & _).
    + vm_compute. discriminate.
    + vm_compute. lia.
    + exists df. split; assumption.
Defined.

(** C6 as the specification words it covers every run, also the one in which
    no ticker is accepted.  There no record is left, which is two or fewer,
    yet no file is written and the notice printed is the no-data one, not the
    insufficient-data one. *)
Lemma correlation_threshold_no_accepted :
  (List.length
     (dropna (results (collect float_of_str_examples Examples.history
                         Examples.financials ["ONE"; "DOWN"; "ZSGA"])))
   <= 2)%nat /\
  csv (Examples.run sort_desc_stable ["ONE"; "DOWN"; "ZSGA"]) = None /\
  In NoDataCollected
     (console (Examples.run sort_desc_stable ["ONE"; "DOWN"; "ZSGA"])) /\
  ~ In InsufficientData
      (console (Examples.run sort_desc_stable ["ONE"; "DOWN"; "ZSGA"])).
Proof.
  split; [vm_compute; lia |]. split; [vm_compute; reflexivity |].
  split.
  - vm_compute. do 7 right. now left.
  - vm_compute. intros H.
    repeat (destruct H as [H | H]; [discriminate |]). exact H.
Qed.

(** C9.  Scalar extraction returns a NaN as it is, and a NaN is not equal to
    zero, so the zero-SG&A check lets it through: there are tickers accepted
    by the pipeline with a NaN R&D, a NaN SG&A (hence a NaN ratio) or a NaN
    growth.  With a sort that returns its rows in some order, every accepted
    record holding a NaN is absent from the file, every row of the file is
    free of missing values, and so are the two columns passed to
    [pearsonr]. *)
Theorem missing_values_dropped (float_of_str : string -> option float) :
  (forall x, is_nan x = true ->
             extract_scalar float_of_str (Bare (CFloat x)) = Ok x /\
             (x =? 0) = false) /\
  (exists history financials t1 t2 t3 r1 r2 r3,
      process_ticker float_of_str history financials t1 = Ok (Accepted r1) /\
      is_nan (R_and_D r1) = true /\ is_nan (Mirsky_Ratio r1) = true /\
      process_ticker float_of_str history financials t2 = Ok (Accepted r2) /\
      is_nan (SG_and_A r2) = true /\ is_nan (Mirsky_Ratio r2) = true /\
      process_ticker float_of_str history financials t3 = Ok (Accepted r3) /\
      is_nan (Market_Growth_1Y_Percent r3) = true) /\
  (forall history financials sort_values pearsonr tickers,
      sorts_descending sort_values ->
      let rep := run_analysis float_of_str history financials sort_values
                   pearsonr tickers in
      (forall df, csv rep = Some df ->
                  Forall (fun r => has_na r = false) df /\
                  forall r, has_na r = true -> ~ In r df) /\
      (forall xs ys, pearson_input rep = Some (xs, ys) ->
                     Forall not_nan xs /\ Forall not_nan ys)).
Proof.
  split; [| split].
  - intros x Hnan. split; [reflexivity | now apply FloatOrder.nan_eqb_l].
  - exists Examples.history, Examples.financials, "NRND", "NSGA", "NANP".
    do 3 eexists. repeat split; vm_compute; reflexivity.
  - intros history financials sort_values pearsonr tickers Hsort rep.
    assert (Hfile : forall df, csv rep = Some df ->
                               Forall (fun r => has_na r = false) df).
    { intros df Hcsv. apply final_analysis_csv in Hcsv as (_ & ->).
      eapply Permutation_Forall; [apply Hsort | apply dropna_complete]. }
    split.
    + intros df Hcsv. split; [now apply Hfile |].
      intros r Hna Hin. specialize (Hfile df Hcsv).
      rewrite Forall_forall in Hfile. specialize (Hfile r Hin). congruence.
    + intros xs ys Hin.
      apply final_analysis_pearson in Hin as (df & Hcsv & -> & ->).
      apply complete_columns. now apply Hfile.
Qed.

Lemma missing_values_dropped_witness :
  map Ticker (results (collect float_of_str_examples Examples.history
                         Examples.financials ["AAA"; "NSGA"; "BBB"]))
  = ["AAA"; "NSGA"; "BBB"] /\
  exists df,
    csv (Examples.run sort_desc_stable ["AAA"; "NSGA"; "BBB"]) = Some df /\
    map Ticker df = ["BBB"; "AAA"] /\
    Forall (fun r => has_na r = false) df.
Proof.
  split; [vm_compute; reflexivity |].
  eexists. split; [vm_compute; reflexivity |]. split; [reflexivity |].
  apply (proj2 (proj2 (missing_values_dropped float_of_str_examples))
           Examples.history Examples.financials sort_desc_stable
           pearsonr_unused ["AAA"; "NSGA"; "BBB"] sort_desc_stable_ok).
  vm_compute. reflexivity.
Defined.

(** ** Further properties of the per-ticker block *)

Lemma bind_ext (A B : Type) (m : result A) (k1 k2 : A -> result B) :
  (forall a, k1 a = k2 a) -> bind m k1 = bind m k2.
Proof. intros H. destruct m; cbn; auto. Qed.



Lemma series_first (float_of_str : string -> option float)
    (f : nat -> cell) (n : nat) :
  (0 < n)%nat ->
  extract_scalar float_of_str (Series (map f (seq 0 n)))
  = extract_scalar float_of_str (Bare (f 0%nat)).
Proof.
  intros Hn. destruct n as [| n]; [lia |]. reflexivity.
Qed.

(** What the two lookups of lines 80-81 extract depends on the index of the
    statement and on its first column only. *)
Lemma loc_extract_first (float_of_str : string -> option float)
    (fin1 fin2 : Financials) (label : string) :
  fin_index fin1 = fin_index fin2 ->
  (0 < fin_columns fin1)%nat -> (0 < fin_columns fin2)%nat ->
  (forall i, fin_at fin1 i 0%nat = fin_at fin2 i 0%nat) ->
  bind (loc fin1 label) (extract_scalar float_of_str)
  = bind (loc fin2 label) (extract_scalar float_of_str).
Proof.
  intros Hidx H1 H2 Hcol. unfold loc. rewrite Hidx.
  destruct (positions label (fin_index fin2) 0) as [| i [| j rest]];
    cbn [bind]; try reflexivity.
  rewrite !series_first by assumption. now rewrite Hcol.
Qed.

Lemma bind_assoc (A B C : Type) (m : result A) (f : A -> result B)
    (k : B -> result C) :
  bind (bind m f) k = bind m (fun a => bind (f a) k).
Proof. destruct m; reflexivity. Qed.

(** Only the most recent period counts.  Two statements with the same line
    items and the same first column, whatever their other periods, give the
    same outcome. *)
Theorem latest_period_only
    (float_of_str : string -> option float)
    (history : string -> result PriceHistory)
    (financials1 financials2 : string -> result Financials)
    (t : string) (fin1 fin2 : Financials) :
  financials1 t = Ok fin1 -> financials2 t = Ok fin2 ->
  fin_index fin1 = fin_index fin2 ->
  (0 < fin_columns fin1)%nat -> (0 < fin_columns fin2)%nat ->
  (forall i, fin_at fin1 i 0%nat = fin_at fin2 i 0%nat) ->
  process_ticker float_of_str history financials1 t
  = process_ticker float_of_str history financials2 t.
Proof.
  intros Hf1 Hf2 Hidx H1 H2 Hcol. unfold process_ticker.
  apply bind_ext; intros hist.
  destruct (hist_len hist <? 2)%nat; [reflexivity |].
  apply bind_ext; intros closes.
  apply bind_ext; intros c0. apply bind_ext; intros s.
  apply bind_ext; intros cN. apply bind_ext; intros e.
  apply bind_ext; intros g.
  rewrite Hf1, Hf2. cbn [bind].
  assert (Hmiss : statement_missing fin1 = statement_missing fin2).
  { unfold statement_missing, fin_empty, in_index. rewrite Hidx.
    replace (fin_columns fin1 =? 0)%nat with false
      by (symmetry; apply Nat.eqb_neq; lia).
    replace (fin_columns fin2 =? 0)%nat with false
      by (symmetry; apply Nat.eqb_neq; lia).
    reflexivity. }
  unfold statement_missing in Hmiss. rewrite Hmiss.
  destruct (fin_empty fin2 || negb (in_index RND_LABEL fin2)
            || negb (in_index SGA_LABEL fin2)); [reflexivity |].
  rewrite <- !bind_assoc.
  rewrite (loc_extract_first float_of_str fin1 fin2 RND_LABEL Hidx H1 H2 Hcol).
  apply bind_ext; intros rnd.
  rewrite <- !bind_assoc.
  rewrite (loc_extract_first float_of_str fin1 fin2 SGA_LABEL Hidx H1 H2 Hcol).
  reflexivity.
Qed.

Lemma latest_period_only_witness :
  process_ticker float_of_str_examples Examples.history
    (fun _ => Ok (Examples.statement (CFloat 50) (CFloat 200))) "ACME"
  = process_ticker float_of_str_examples Examples.history
      (fun _ => Ok (Examples.statement_latest (CFloat 50) (CFloat 200))) "ACME".
Proof.
  apply (latest_period_only float_of_str_examples Examples.history
           (fun _ => Ok (Examples.statement (CFloat 50) (CFloat 200)))
           (fun _ => Ok (Examples.statement_latest (CFloat 50) (CFloat 200)))
           "ACME" eq_refl eq_refl).
  - reflexivity.
  - cbn. lia.
  - cbn. lia.
  - intros [| [| [| [| i]]]]; reflexivity.
Defined.

(** Only the first and the last close count.  Two histories of two
    observations or more that start with the same cell and end with the same
    cell give the same outcome, growth included. *)
Theorem first_and_last_close_only
    (float_of_str : string -> option float)
    (history1 history2 : string -> result PriceHistory)
    (financials : string -> result Financials)
    (t : string) (hist1 hist2 : list cell) :
  history1 t = Ok (WithClose hist1) -> history2 t = Ok (WithClose hist2) ->
  (2 <= List.length hist1)%nat -> (2 <= List.length hist2)%nat ->
  hd_error hist1 = hd_error hist2 ->
  last hist1 CNone = last hist2 CNone ->
  process_ticker float_of_str history1 financials t
  = process_ticker float_of_str history2 financials t.
Proof.
  intros Hh1 Hh2 Hl1 Hl2 Hhd Hlast.
  destruct (iloc_ends hist1) as (a0 & aN & Ha0 & HaN & Hahd & Halast); [lia |].
  destruct (iloc_ends hist2) as (b0 & bN & Hb0 & HbN & Hbhd & Hblast); [lia |].
  assert (Hb0' : iloc hist2 0 = Ok a0) by congruence.
  assert (HbN' : iloc hist2 (-1) = Ok aN) by congruence.
  assert (Hn1 : (List.length hist1 <? 2)%nat = false) by (apply Nat.ltb_ge; lia).
  assert (Hn2 : (List.length hist2 <? 2)%nat = false) by (apply Nat.ltb_ge; lia).
  unfold process_ticker. rewrite Hh1, Hh2. cbn [bind hist_len close_column].
  rewrite Hn1, Hn2. cbn [bind]. rewrite Ha0, Hb0'. cbn [bind].
  apply bind_ext; intros s. rewrite HaN, HbN'. reflexivity.
Qed.

Lemma first_and_last_close_only_witness :
  process_ticker float_of_str_examples
    (fun _ => Ok (WithClose (Examples.prices [100; 120])))
    Examples.financials "ACME"
  = Examples.process_ticker "ACME".
Proof.
  apply (first_and_last_close_only float_of_str_examples
           (fun _ => Ok (WithClose (Examples.prices [100; 120])))
           Examples.history
           Examples.financials "ACME" eq_refl eq_refl).
  - cbn. lia.
  - cbn. lia.
  - reflexivity.
  - reflexivity.
Defined.

(** A line item that comes twice in the index is read by [loc] as a frame,
    which extracts as 0.0: a statement with a repeated SG&A row is never
    accepted, whatever the rows hold, and when the block runs to its end the
    ticker is skipped for a zero SG&A. *)
Theorem repeated_sga_row_skipped
    (float_of_str : string -> option float)
    (history : string -> result PriceHistory)
    (financials : string -> result Financials)
    (t : string) (hist : PriceHistory) (fin : Financials) :
  history t = Ok hist -> (2 <= hist_len hist)%nat ->
  financials t = Ok fin -> statement_missing fin = false ->
  (2 <= List.length (positions SGA_LABEL (fin_index fin) 0))%nat ->
  (forall o, process_ticker float_of_str history financials t = Ok o ->
             o = Skipped SGAIsZero) /\
  (forall closes c_first,
      hist = WithClose closes -> hd_error closes = Some c_first ->
      too_large c_first = false -> too_large (last closes CNone) = false ->
      (forall i, too_large (fin_at fin i 0%nat) = false) ->
      process_ticker float_of_str history financials t
      = Ok (Skipped SGAIsZero)).
Proof.
  intros Hhist Hlen Hfin Hmiss Htwice.
  assert (Hrow : loc fin SGA_LABEL = Ok Frame).
  { unfold loc.
    destruct (positions SGA_LABEL (fin_index fin) 0) as [| i [| j rest]];
      cbn in Htwice; try lia. reflexivity. }
  assert (Hdone : forall o,
             process_ticker float_of_str history financials t = Ok o ->
             o = Skipped SGAIsZero).
  { intros o Ho.
    destruct (process_ticker_completes _ _ _ _ Ho)
      as (hist' & Hhist' & [(Hshort & _) | Hrest]).
    { assert (hist' = hist) by congruence; subst hist'. lia. }
    destruct Hrest as (closes & c0 & cN & s & e & fin' & _ & _ & _ & _ & _ & _
                       & Hfin' & Hrest).
    assert (fin' = fin) by congruence; subst fin'.
    destruct Hrest as [(Hmiss' & _) | Hrest]; [congruence |].
    destruct Hrest as (rr & sr & rnd & sga & _ & _ & Hsr & _ & Hsga & Hrest).
    assert (sr = Frame) by congruence; subst sr.
    rewrite extract_scalar_frame in Hsga. injection Hsga as <-.
    destruct Hrest as [(_ & Hskip) | (Hnz & _)]; [exact Hskip |].
    vm_compute in Hnz. discriminate. }
  split; [exact Hdone |].
  intros closes c_first -> Hhd Hfirst Hlast Hcells.
  cbn [hist_len] in Hlen.
  destruct (process_ticker float_of_str history financials t) as [o | x] eqn:Hp;
    [now rewrite (Hdone o eq_refl) |].
  exfalso.
  destruct (process_ticker_long float_of_str _ financials _ Hhist Hlen)
    as (c0 & cN & Hhd' & HlastN & Hrest).
  assert (c0 = c_first) by congruence; subst c0. subst cN.
  destruct (extract_scalar_returns float_of_str (Bare c_first)) as (s & Hs);
    [intros c [= <-]; exact Hfirst |].
  destruct (extract_scalar_returns float_of_str (Bare (last closes CNone)))
    as (e & He); [intros c [= <-]; exact Hlast |].
  rewrite Hs, He, Hfin, Hmiss in Hrest.
  destruct Hrest as (rr & sr & Hrr & Hsr & Hrest).
  assert (sr = Frame) by congruence; subst sr.
  assert (Hcols : (0 < fin_columns fin)%nat).
  { unfold statement_missing, fin_empty in Hmiss.
    repeat (apply orb_false_elim in Hmiss as (Hmiss & ?)).
    apply Nat.eqb_neq in H1. lia. }
  destruct (extract_scalar_returns float_of_str rr) as (rnd & Hrnd).
  { intros c Hc. unfold loc in Hrr.
    destruct (positions RND_LABEL (fin_index fin) 0) as [| i [| j rest]];
      [discriminate | | injection Hrr as <-; discriminate].
    injection Hrr as <-.
    destruct (fin_columns fin) as [| n]; [lia |].
    cbn in Hc. injection Hc as <-. apply Hcells. }
  rewrite Hrnd, extract_scalar_frame in Hrest.
  change (0 =? 0) with true in Hrest. congruence.
Qed.

Lemma repeated_sga_row_skipped_witness :
  process_ticker float_of_str_examples Examples.history
    (fun _ => Ok Examples.statement_repeated_sga) "ACME"
  = Ok (Skipped SGAIsZero).
Proof.
  apply (proj2 (@repeated_sga_row_skipped float_of_str_examples
                  Examples.history
                  (fun _ => Ok Examples.statement_repeated_sga) "ACME"
                  (WithClose (Examples.prices [100; 110; 120]))
                  Examples.statement_repeated_sga
                  eq_refl (le_S _ _ (le_n 2)) eq_refl eq_refl (le_n 2))
           (Examples.prices [100; 110; 120]) (CFloat 100)); try reflexivity.
  intros [| [| [| [| i]]]]; reflexivity.
Defined.



(** A NaN close is treated differently at the two ends of the history.  At
    the start it fails the test [start_price > 0], so the growth is 0 and the
    record shows no missing growth; at the end, after a positive start, it
    makes the growth NaN, so the record holds a missing value. *)
Theorem nan_close_at_either_end
    (float_of_str : string -> option float)
    (history : string -> result PriceHistory)
    (financials : string -> result Financials)
    (t : string) (hist : list cell) (r : record) :
  history t = Ok (WithClose hist) -> (2 <= List.length hist)%nat ->
  process_ticker float_of_str history financials t = Ok (Accepted r) ->
  (forall x, hd_error hist = Some (CFloat x) -> is_nan x = true ->
             Market_Growth_1Y_Percent r = 0) /\
  (forall s e, hd_error hist = Some (CFloat s) -> (0 <? s) = true ->
               last hist CNone = CFloat e -> is_nan e = true ->
               is_nan (Market_Growth_1Y_Percent r) = true /\ has_na r = true).
Proof.
  intros Hhist Hlen Hacc.
  destruct (accepted_growth float_of_str history financials t Hhist Hacc)
    as (c0 & cN & s0 & e0 & Hhd & Hlast & Hs & He & Hgrowth).
  split.
  - intros x Hx Hnan. assert (c0 = CFloat x) by congruence; subst c0.
    rewrite extract_scalar_bare in Hs. injection Hs as <-.
    rewrite Hgrowth, (@FloatOrder.ltb_nan_r 0 x Hnan). reflexivity.
  - intros s e Hsx Hpos Hex Hnan.
    assert (c0 = CFloat s) by congruence; subst c0.
    subst cN. rewrite Hex in He.
    rewrite extract_scalar_bare in Hs, He.
    injection Hs as <-. injection He as <-.
    assert (Hg : is_nan (Market_Growth_1Y_Percent r) = true).
    { rewrite Hgrowth, Hpos.
      apply FloatOrder.mul_nan_l, FloatOrder.div_nan_l, FloatOrder.sub_nan_l.
      exact Hnan. }
    split; [exact Hg |]. unfold has_na. rewrite Hg.
    now rewrite orb_true_r.
Qed.

Lemma nan_close_at_either_end_witness :
  exists r,
    Examples.process_ticker "NANP" = Ok (Accepted r) /\
    is_nan (Market_Growth_1Y_Percent r) = true /\ has_na r = true.
Proof.
  eexists. split; [vm_compute; reflexivity |].
  apply (proj2 (nan_close_at_either_end float_of_str_examples
                  Examples.history Examples.financials "NANP"
                  (hist := [CFloat 100; CFloat nan]) eq_refl
                  (le_n 2) eq_refl) 100 nan); reflexivity.
Defined.

(** ** Further properties of the report *)

Lemma Permutation_filter (A : Type) (p : A -> bool) (l l' : list A) :
  Permutation l l' -> Permutation (filter p l) (filter p l').
Proof.
  induction 1 as [| x l l' _ IH | x y l | l l' l'' _ IH1 _ IH2]; cbn.
  - constructor.
  - destruct (p x); [now constructor | assumption].
  - destruct (p x), (p y); try apply Permutation_refl. apply perm_swap.
  - eapply perm_trans; eassumption.
Qed.

Section Report.

Variable float_of_str : string -> option float.
Variable history : string -> result PriceHistory.
Variable financials : string -> result Financials.

Abbreviation process_ticker := (process_ticker float_of_str history financials).
Abbreviation collect := (collect float_of_str history financials).

Lemma accepted_ticker (t : string) (r : record) :
  process_ticker t = Ok (Accepted r) -> Ticker r = t.
Proof.
  intros Hacc.
  destruct (process_ticker_accepted _ _ _ _ Hacc)
    as (hist & fin & c0 & cN & s & e & rr & sr & rnd & sga & H).
  repeat (destruct H as (_ & H)). now subst r.
Qed.

Lemma in_accepted_of (o : result outcome) (r : record) :
  In r (accepted_of o) <-> o = Ok (Accepted r).
Proof.
  destruct o as [[why | r'] | e]; cbn; split;
    try contradiction; try discriminate.
  - intros [-> | []]. reflexivity.
  - intros [= ->]. now left.
Qed.

Lemma in_results (tickers : list string) (r : record) :
  In r (results (collect tickers)) <->
  exists t, In t tickers /\ process_ticker t = Ok (Accepted r).
Proof.
  rewrite collect_results, in_flat_map.
  split; intros (t & Hin & H); exists t; (split; [exact Hin |]);
    now apply in_accepted_of.
Qed.

Lemma results_tickers_NoDup (tickers : list string) :
  NoDup tickers -> NoDup (map Ticker (results (collect tickers))).
Proof.
  rewrite collect_results.
  induction 1 as [| t rest Hnotin _ IH]; cbn [flat_map map]; [constructor |].
  destruct (process_ticker t) as [[why | r] | e] eqn:Hp; cbn [accepted_of app map];
    try exact IH.
  constructor; [| exact IH].
  rewrite (accepted_ticker _ Hp). intros Hin.
  apply in_map_iff in Hin as (r' & Hr' & Hin).
  apply in_flat_map in Hin as (t' & Hin' & Hacc).
  apply in_accepted_of in Hacc. apply accepted_ticker in Hacc.
  apply Hnotin. congruence.
Qed.

Lemma results_length (tickers : list string) :
  (List.length (results (collect tickers)) <= List.length tickers)%nat.
Proof.
  rewrite collect_results.
  induction tickers as [| t rest IH]; cbn [flat_map List.length]; [lia |].
  rewrite length_app.
  destruct (process_ticker t) as [[why | r] | e]; cbn; lia.
Qed.

Lemma collect_printed_loop_lines (tickers : list string) :
  forallb is_loop_line (printed (collect tickers)) = true.
Proof.
  rewrite collect_printed. cbn [forallb is_loop_line andb].
  induction (enumerate tickers) as [| [i t] its IH]; cbn [flat_map app forallb];
    [reflexivity |].
  rewrite IH.
  destruct (Script.process_ticker float_of_str history financials (snd (i, t)))
    as [[why | r] | e]; reflexivity.
Qed.

End Report.

(** Dropping rows keeps the tickers distinct. *)
Lemma dropna_tickers_NoDup (rows : list record) :
  NoDup (map Ticker rows) -> NoDup (map Ticker (dropna rows)).
Proof.
  unfold dropna. induction rows as [| r rest IH]; intros Hnd; [exact Hnd |].
  cbn in Hnd. apply NoDup_cons_iff in Hnd as (Hfresh & Hrest).
  cbn. destruct (has_na r); cbn; [now apply IH |].
  apply NoDup_cons; [| now apply IH].
  contradict Hfresh.
  apply in_map_iff in Hfresh as (r' & Hsame & Hin).
  apply filter_In in Hin as (Hin & _).
  apply in_map_iff. now exists r'.
Qed.

(** The rows of the file are exactly the records of the tickers of the list
    that were accepted and hold no missing value; there are no more of them
    than tickers; and when no ticker is listed twice, no ticker has two
    rows. *)
Theorem csv_rows_exact
    (float_of_str : string -> option float)
    (history : string -> result PriceHistory)
    (financials : string -> result Financials)
    (sort_values : list record -> list record)
    (pearsonr : list float -> list float -> float * float)
    (tickers : list string) (df : list record) :
  sorts_descending sort_values ->
  csv (run_analysis float_of_str history financials sort_values pearsonr tickers)
  = Some df ->
  (forall r,
      In r df <->
      In (Ticker r) tickers /\
      process_ticker float_of_str history financials (Ticker r) = Ok (Accepted r) /\
      has_na r = false) /\
  (List.length df <= List.length tickers)%nat /\
  (NoDup tickers -> NoDup (map Ticker df)).
Proof.
  intros Hsort Hcsv. apply final_analysis_csv in Hcsv as (_ & ->).
  set (res := results (collect float_of_str history financials tickers)).
  destruct (Hsort (dropna res)) as (Hperm & _).
  split; [| split].
  - intros r. split.
    + intros Hin. apply (Permutation_in _ (Permutation_sym Hperm)) in Hin.
      unfold dropna in Hin. apply filter_In in Hin as (Hin & Hna).
      apply in_results in Hin as (t & Hin & Hacc).
      pose proof (accepted_ticker _ _ _ _ Hacc) as Ht. rewrite Ht.
      repeat split; try assumption. now apply negb_true_iff.
    + intros (Hin & Hacc & Hna).
      apply (Permutation_in _ Hperm). unfold dropna. apply filter_In.
      split; [| now rewrite Hna].
      apply in_results. now exists (Ticker r).
  - rewrite <- (Permutation_length Hperm). unfold dropna.
    eapply Nat.le_trans; [apply filter_length_le | apply results_length].
  - intros Hnd.
    eapply Permutation_NoDup; [apply Permutation_map, Hperm |].
    apply dropna_tickers_NoDup. now apply results_tickers_NoDup.
Qed.

Lemma sp100_tickers_NoDup : NoDup sp100_tickers.
Proof.
  replace sp100_tickers with (nodup string_dec sp100_tickers)
    by (vm_compute; reflexivity).
  apply NoDup_nodup.
Qed.

Lemma csv_rows_exact_witness :
  exists df,
    csv (main float_of_str_examples Examples.history Examples.financials
           sort_desc_stable pearsonr_unused) = Some df /\
    (List.length df <= List.length sp100_tickers)%nat /\
    NoDup (map Ticker df).
Proof.
  destruct (csv (main float_of_str_examples Examples.history
                   Examples.financials sort_desc_stable pearsonr_unused))
    as [df |] eqn:Hcsv; [| vm_compute in Hcsv; discriminate].
  exists df. split; [reflexivity |].
  destruct (csv_rows_exact float_of_str_examples Examples.history
              Examples.financials pearsonr_unused sp100_tickers
              sort_desc_stable_ok Hcsv) as (_ & Hlen & Hnodup).
  split; [exact Hlen | exact (Hnodup sp100_tickers_NoDup)].
Defined.

(** [pearsonr] is only ever called on two columns of the same length, three
    values or more each: the ratio and the growth columns of the frame that
    was written, whose number of rows is the sample size printed. *)
Theorem pearsonr_input_well_formed
    (float_of_str : string -> option float)
    (history : string -> result PriceHistory)
    (financials : string -> result Financials)
    (sort_values : list record -> list record)
    (pearsonr : list float -> list float -> float * float)
    (tickers : list string) (xs ys : list float) :
  let rep := run_analysis float_of_str history financials sort_values
               pearsonr tickers in
  pearson_input rep = Some (xs, ys) ->
  List.length xs = List.length ys /\ (3 <= List.length xs)%nat /\
  exists df,
    csv rep = Some df /\
    xs = map Mirsky_Ratio df /\ ys = map Market_Growth_1Y_Percent df /\
    In (StatisticalResults (List.length df)
          (fst (pearsonr xs ys)) (snd (pearsonr xs ys)))
       (console rep).
Proof.
  intros rep. subst rep. unfold run_analysis.
  set (st := collect float_of_str history financials tickers).
  destruct (results st) as [| r rest] eqn:Hres.
  - rewrite (final_analysis_empty _ _ _ Hres). discriminate.
  - assert (Hne : results st <> []) by congruence.
    destruct (Nat.lt_ge_cases 2 (List.length (sort_values (dropna (results st)))))
      as [Hlen | Hlen].
    + rewrite (final_analysis_statistics sort_values pearsonr _ Hne Hlen).
      cbn [pearson_input csv console]. intros [= <- <-].
      rewrite !length_map. split; [reflexivity |]. split; [lia |].
      eexists. split; [reflexivity |]. split; [reflexivity |].
      split; [reflexivity |].
      apply in_or_app. right. right. left. reflexivity.
    + rewrite (final_analysis_insufficient sort_values pearsonr _ Hne Hlen).
      discriminate.
Qed.

Lemma pearsonr_input_well_formed_witness :
  exists xs ys,
    pearson_input (Examples.run sort_desc_stable ["AAA"; "DOWN"; "BBB"; "CCC"])
    = Some (xs, ys) /\
    List.length xs = List.length ys /\ (3 <= List.length xs)%nat.
Proof.
  destruct (pearson_input
              (Examples.run sort_desc_stable ["AAA"; "DOWN"; "BBB"; "CCC"]))
    as [[xs ys] |] eqn:Hinput; [| vm_compute in Hinput; discriminate].
  exists xs, ys. split; [reflexivity |].
  destruct (pearsonr_input_well_formed float_of_str_examples Examples.history
              Examples.financials sort_desc_stable pearsonr_unused
              ["AAA"; "DOWN"; "BBB"; "CCC"] Hinput)
    as (Hsame & Hthree & _).
  split; assumption.
Defined.

(** The file is written exactly when some ticker of the list is accepted, and
    then the run announces it; otherwise the run prints the no-data notice.
    Accepted records that all hold a missing value still count: the file is
    written, without rows. *)
Theorem file_written_iff_accepted
    (float_of_str : string -> option float)
    (history : string -> result PriceHistory)
    (financials : string -> result Financials)
    (sort_values : list record -> list record)
    (pearsonr : list float -> list float -> float * float)
    (tickers : list string) :
  let rep := run_analysis float_of_str history financials sort_values
               pearsonr tickers in
  (csv rep <> None <->
   exists t r, In t tickers /\
               process_ticker float_of_str history financials t
               = Ok (Accepted r)) /\
  (In (SavedTo output_filename) (console rep) <-> csv rep <> None) /\
  (In NoDataCollected (console rep) <-> csv rep = None).
Proof.
  intros rep. subst rep. unfold run_analysis.
  set (st := collect float_of_str history financials tickers).
  pose proof (collect_printed_loop_lines float_of_str history financials tickers)
    as Hloop. fold st in Hloop. rewrite forallb_forall in Hloop.
  assert (Hsaved : ~ In (SavedTo output_filename) (printed st))
    by (intros Hin; apply Hloop in Hin; discriminate).
  assert (Hnodata : ~ In NoDataCollected (printed st))
    by (intros Hin; apply Hloop in Hin; discriminate).
  assert (Hacc : results st <> [] <->
                 exists t r, In t tickers /\
                             process_ticker float_of_str history financials t
                             = Ok (Accepted r)).
  { split.
    - intros Hne. destruct (results st) as [| r rest] eqn:Hres; [congruence |].
      assert (Hin : In r (results st)) by (rewrite Hres; now left).
      apply in_results in Hin as (t & Hin & Hp). now exists t, r.
    - intros (t & r & Hin & Hp) Hnil.
      assert (Hr : In r (results st)) by (apply in_results; now exists t).
      rewrite Hnil in Hr. contradiction. }
  destruct (results st) as [| r rest] eqn:Hres.
  - rewrite (final_analysis_empty _ _ _ Hres). cbn [csv console].
    split; [| split].
    + rewrite <- Hacc. split; congruence.
    + split; [| congruence]. intros Hin.
      apply in_app_or in Hin as [Hin | [Hin | []]]; [contradiction | discriminate].
    + split; [reflexivity |]. intros _. apply in_or_app. right. now left.
  - assert (Hne : results st <> []) by congruence.
    assert (Hwritten : csv (final_analysis sort_values pearsonr st) <> None /\
                       exists tail,
                         console (final_analysis sort_values pearsonr st)
                         = printed st ++ SavedTo output_filename :: tail /\
                         ~ In NoDataCollected tail).
    { destruct (Nat.lt_ge_cases 2
                  (List.length (sort_values (dropna (results st)))))
        as [Hlen | Hlen].
      - rewrite (final_analysis_statistics sort_values pearsonr _ Hne Hlen).
        cbn [csv console]. split; [discriminate |].
        eexists. split; [reflexivity |]. intros [H | []]. discriminate.
      - rewrite (final_analysis_insufficient sort_values pearsonr _ Hne Hlen).
        cbn [csv console]. split; [discriminate |].
        eexists. split; [reflexivity |]. intros [H | []]. discriminate. }
    destruct Hwritten as (Hcsv & tail & Hconsole & Htail).
    rewrite Hconsole. split; [| split].
    + split; [intros _; now apply Hacc | intros _; exact Hcsv].
    + split; [intros _; exact Hcsv |].
      intros _. apply in_or_app. right. now left.
    + split; [| intros H; congruence]. intros Hin.
      apply in_app_or in Hin as [Hin | [Hin | Hin]];
        [contradiction | discriminate | contradiction].
Qed.

Lemma dropna_all_missing (rows : list record) :
  Forall (fun r => has_na r = true) rows -> dropna rows = [].
Proof.
  induction 1 as [| r rest Hr _ IH]; [reflexivity |].
  unfold dropna in *. cbn. now rewrite Hr.
Qed.

(** When every accepted record holds a missing value the frame is empty, yet
    the file is written (with no row) and the run reports insufficient data,
    not the absence of data. *)
Theorem all_records_dropped
    (float_of_str : string -> option float)
    (history : string -> result PriceHistory)
    (financials : string -> result Financials)
    (sort_values : list record -> list record)
    (pearsonr : list float -> list float -> float * float)
    (tickers : list string) :
  sorts_descending sort_values ->
  results (collect float_of_str history financials tickers) <> [] ->
  Forall (fun r => has_na r = true)
    (results (collect float_of_str history financials tickers)) ->
  run_analysis float_of_str history financials sort_values pearsonr tickers
  = {| console := printed (collect float_of_str history financials tickers)
                  ++ [SavedTo output_filename; InsufficientData];
       csv := Some [];
       pearson_input := None |}.
Proof.
  intros Hsort Hne Hall. unfold run_analysis.
  set (st := collect float_of_str history financials tickers) in *.
  pose proof (dropna_all_missing Hall) as Hdrop.
  assert (Hdf : sort_values (dropna (results st)) = []).
  { rewrite Hdrop. destruct (Hsort []) as (Hperm & _).
    now apply Permutation_nil in Hperm. }
  rewrite (final_analysis_insufficient sort_values pearsonr _ Hne)
    by (rewrite Hdf; cbn; lia).
  now rewrite Hdf.
Qed.

Lemma all_records_dropped_witness :
  Examples.run sort_desc_stable ["NSGA"; "ONE"; "NRND"]
  = {| console :=
         [Starting;
          Processing 1 3 "NSGA"; PrintOK;
          Processing 2 3 "ONE"; PrintSkipped InsufficientPriceData;
          Processing 3 3 "NRND"; PrintOK;
          SavedTo output_filename; InsufficientData];
       csv := Some [];
       pearson_input := None |}.
Proof.
  unfold Examples.run.
  rewrite (all_records_dropped float_of_str_examples Examples.history
             Examples.financials pearsonr_unused ["NSGA"; "ONE"; "NRND"]
             sort_desc_stable_ok).
  - vm_compute. reflexivity.
  - vm_compute. discriminate.
  - vm_compute. repeat constructor.
Defined.

Section Order.

Variable float_of_str : string -> option float.
Variable history : string -> result PriceHistory.
Variable financials : string -> result Financials.
Variable sort_values : list record -> list record.
Variable pearsonr : list float -> list float -> float * float.

Abbreviation final_analysis := (final_analysis sort_values pearsonr).

Lemma csv_none_iff (st : loop_state) :
  csv (final_analysis st) = None <-> results st = [].
Proof.
  split.
  - intros Hnone. destruct (results st) as [| r rest] eqn:Hres; [reflexivity |].
    assert (Hne : results st <> []) by congruence.
    destruct (Nat.lt_ge_cases 2 (List.length (sort_values (dropna (results st)))))
      as [Hlen | Hlen].
    + rewrite (final_analysis_statistics sort_values pearsonr _ Hne Hlen) in Hnone.
      discriminate.
    + rewrite (final_analysis_insufficient sort_values pearsonr _ Hne Hlen) in Hnone.
      discriminate.
  - intros Hnil. now rewrite (final_analysis_empty _ _ _ Hnil).
Qed.

Lemma pearson_input_none_iff (st : loop_state) :
  pearson_input (final_analysis st) = None <->
  (List.length (sort_values (dropna (results st))) <= 2)%nat \/ results st = [].
Proof.
  destruct (results st) as [| r rest] eqn:Hres.
  - rewrite (final_analysis_empty _ _ _ Hres). cbn. split; auto.
  - assert (Hne : results st <> []) by congruence. rewrite <- Hres.
    destruct (Nat.lt_ge_cases 2 (List.length (sort_values (dropna (results st)))))
      as [Hlen | Hlen].
    + rewrite (final_analysis_statistics sort_values pearsonr _ Hne Hlen). cbn.
      split; [discriminate | intros [H | H]; [lia | congruence]].
    + rewrite (final_analysis_insufficient sort_values pearsonr _ Hne Hlen). cbn.
      tauto.
Qed.

End Order.

(** The order of the ticker list does not matter to what is accepted.  Two
    lists with the same tickers collect the same records, write the file in
    the same cases and with the same rows up to their order, and compute the
    correlation in the same cases. *)
Theorem ticker_order_immaterial
    (float_of_str : string -> option float)
    (history : string -> result PriceHistory)
    (financials : string -> result Financials)
    (sort_values : list record -> list record)
    (pearsonr : list float -> list float -> float * float)
    (tickers tickers' : list string) :
  sorts_descending sort_values ->
  Permutation tickers tickers' ->
  let rep := run_analysis float_of_str history financials sort_values
               pearsonr tickers in
  let rep' := run_analysis float_of_str history financials sort_values
                pearsonr tickers' in
  Permutation (results (collect float_of_str history financials tickers))
              (results (collect float_of_str history financials tickers')) /\
  (csv rep = None <-> csv rep' = None) /\
  (forall df df', csv rep = Some df -> csv rep' = Some df' -> Permutation df df') /\
  (pearson_input rep = None <-> pearson_input rep' = None).
Proof.
  intros Hsort Hperm rep rep'. subst rep rep'. unfold run_analysis.
  set (st := collect float_of_str history financials tickers).
  set (st' := collect float_of_str history financials tickers').
  assert (Hres : Permutation (results st) (results st')).
  { unfold st, st'. rewrite !collect_results.
    now apply Permutation_flat_map. }
  assert (Hnil : results st = [] <-> results st' = []).
  { split; intros H; rewrite H in Hres;
      [apply Permutation_nil in Hres
      | apply Permutation_sym, Permutation_nil in Hres]; assumption. }
  assert (Hdf : Permutation (sort_values (dropna (results st)))
                            (sort_values (dropna (results st')))).
  { eapply perm_trans; [apply Permutation_sym, Hsort |].
    eapply perm_trans; [| apply Hsort].
    unfold dropna. now apply Permutation_filter. }
  split; [exact Hres |]. split; [| split].
  - rewrite !csv_none_iff. exact Hnil.
  - intros df df' Hcsv Hcsv'.
    apply final_analysis_csv in Hcsv as (_ & ->).
    apply final_analysis_csv in Hcsv' as (_ & ->). exact Hdf.
  - rewrite !pearson_input_none_iff, (Permutation_length Hdf). tauto.
Qed.

Lemma ticker_order_immaterial_witness :
  map Ticker (results (collect float_of_str_examples Examples.history
                         Examples.financials ["AAA"; "DOWN"; "BBB"]))
  = ["AAA"; "BBB"] /\
  Permutation
    (results (collect float_of_str_examples Examples.history
                Examples.financials ["AAA"; "DOWN"; "BBB"]))
    (results (collect float_of_str_examples Examples.history
                Examples.financials ["BBB"; "AAA"; "DOWN"])).
Proof.
  split; [vm_compute; reflexivity |].
  assert (Hperm : Permutation ["AAA"; "DOWN"; "BBB"] ["BBB"; "AAA"; "DOWN"]).
  { change ["AAA"; "DOWN"; "BBB"] with (["AAA"; "DOWN"] ++ ["BBB"]).
    apply Permutation_app_comm. }
  destruct (ticker_order_immaterial float_of_str_examples Examples.history
              Examples.financials pearsonr_unused sort_desc_stable_ok Hperm)
    as (Hres & _).
  exact Hres.
Defined.

Section Console.

Variable float_of_str : string -> option float.
Variable history : string -> result PriceHistory.
Variable financials : string -> result Financials.

Abbreviation process_ticker := (process_ticker float_of_str history financials).





End Console.


